(** * NotiBoost React SDK: provider, context and hooks (src/index.tsx)

    A shallow embedding of the provider component, its request wrapper and
    the three hooks.  React state cells are fields of an explicit [World];
    an [async] function is a world transformer that settles as resolved or
    rejected; every state write and every call into the browser SDK client
    is appended to a trace, so that ordering and counting properties can be
    stated.  In [Async] one operation runs at a time: an awaited call has
    settled before the statement after it runs.  Wrapped calls that overlap
    on the shared loading and error cells are modelled apart, by
    [handleRequest] cut at its [await]. *)

From Stdlib Require Import String List Bool ZArith Lia.
Import ListNotations.
Open Scope string_scope.
Open Scope list_scope.

(* ------------------------------------------------------------------ *)
(** ** Values *)

(** JSON-like payloads: events, users, channel data, preferences and the
    responses of the client all have type [any] at run time. *)
#[local] Unset Elimination Schemes.
Inductive Json : Type :=
| JNull
| JBool (b : bool)
| JNum (n : Z)
| JStr (s : string)
| JArr (items : list Json)
| JObj (fields : list (string * Json)).
#[local] Set Elimination Schemes.

Definition Event := Json.
Definition User := Json.
Definition ChannelData := Json.
Definition UserPreferences := Json.

(** Modelled from the spec: the class NotiBoostError is declared in
    @notiboost/browser-sdk, which is not part of this repository.  It is the
    single error kind, carrying a message and a status code; its constructor
    is called as [new NotiBoostError(message, statusCode)]. *)
Record NotiBoostError : Type := new_NotiBoostError {
  message : string;
  statusCode : Z
}.

(** What a [catch (err)] clause can receive, classified by the two
    [instanceof] tests the source performs. *)
Inductive Thrown : Type :=
| NotiBoostErrorInstance (e : NotiBoostError)
    (* err instanceof NotiBoostError *)
| ErrorInstance (msg : string)
    (* err instanceof Error, but not a NotiBoostError; msg is err.message *)
| OtherValue (msg : option string).
    (* any other value: a string, undefined, a plain object...; msg is its
       own message property when it has one *)

(** The message property of a thrown value, when it has one. *)
Definition thrown_message (err : Thrown) : option string :=
  match err with
  | NotiBoostErrorInstance e => Some (message e)
  | ErrorInstance msg => Some msg
  | OtherValue msg => msg
  end.

(** [err instanceof NotiBoostError ? err
       : new NotiBoostError(err instanceof Error ? err.message : 'Unknown error', 0)]
    (index.tsx lines 51-53, 160-162, 181-183 and 199-201). *)
Definition toNotiBoostError (err : Thrown) : NotiBoostError :=
  match err with
  | NotiBoostErrorInstance e => e
  | ErrorInstance msg => new_NotiBoostError msg 0
  | OtherValue _ => new_NotiBoostError "Unknown error" 0
  end.

(** How a promise settles. *)
Inductive Settled (A : Type) : Type :=
| Resolved (a : A)
| Rejected (err : Thrown).
Arguments Resolved {A} a.
Arguments Rejected {A} err.

(** How a synchronous call (a hook called during render) completes. *)
Inductive Completion (A : Type) : Type :=
| Returned (a : A)
| Threw (err : Thrown).
Arguments Returned {A} a.
Arguments Threw {A} err.

(* ------------------------------------------------------------------ *)
(** ** The external client *)

(** Props of the provider ([children] plays no part in what follows). *)
Record NotiBoostProviderProps : Type := {
  apiKey : string;
  baseURL : option string;
  timeout : option Z;
  retries : option Z
}.

(** The object literal handed to the client constructor. *)
Record NotiBoostConfig : Type := {
  config_apiKey : string;
  config_baseURL : option string;
  config_timeout : option Z;
  config_retries : option Z
}.

(** Modelled from the spec: NotiBoostClient is the opaque client of
    @notiboost/browser-sdk; an instance is determined by the configuration
    it was constructed with. *)
Record NotiBoostClient : Type := new_NotiBoostClient {
  config : NotiBoostConfig
}.

(** The method surface of the client that the provider uses. *)
Inductive Call : Type :=
| EventsIngest (event : Event)
| EventsIngestBatch (events : list Event)
| UsersCreate (user : User)
| UsersGet (userId : string)
| UsersUpdate (userId : string) (data : User)
| UsersDelete (userId : string)
| UsersSetChannelData (userId : string) (channelData : ChannelData)
| UsersSetPreferences (userId : string) (preferences : UserPreferences).

(* ------------------------------------------------------------------ *)
(** ** State and trace *)

Inductive Action : Type :=
| NewClient (cfg : NotiBoostConfig)            (* new NotiBoostClient(cfg) *)
| SetLoading (b : bool)                        (* provider: setLoading *)
| SetError (e : option NotiBoostError)         (* provider: setError *)
| HookSetUser (u : User)                       (* useUser: setUser *)
| HookSetLoading (b : bool)                    (* useUser: setLoading *)
| HookSetError (e : option NotiBoostError)     (* useUser: setError *)
| ClientCall (c : Call).                       (* a method of the client *)

Record World : Type := mkWorld {
  st_client : option NotiBoostClient;   (* provider: useState(() => new ...) *)
  st_loading : bool;                    (* provider: useState(false) *)
  st_error : option NotiBoostError;     (* provider: useState(null) *)
  hk_user : option User;                (* useUser: useState(null) *)
  hk_loading : bool;                    (* useUser: useState(false) *)
  hk_error : option NotiBoostError;     (* useUser: useState(null) *)
  trace : list Action
}.

(** The state cells before the first render. *)
Definition initial_world : World :=
  mkWorld None false None None false None [].

Definition log (a : Action) (w : World) : World :=
  mkWorld (st_client w) (st_loading w) (st_error w)
          (hk_user w) (hk_loading w) (hk_error w) (trace w ++ [a]).

Fixpoint calls_of (t : list Action) : list Call :=
  match t with
  | [] => []
  | ClientCall c :: t' => c :: calls_of t'
  | _ :: t' => calls_of t'
  end.

Fixpoint constructions_of (t : list Action) : list NotiBoostConfig :=
  match t with
  | [] => []
  | NewClient cfg :: t' => cfg :: constructions_of t'
  | _ :: t' => constructions_of t'
  end.

(* ------------------------------------------------------------------ *)
(** ** Async functions *)

Definition Async (A : Type) : Type := World -> Settled A * World.

Definition ret {A} (a : A) : Async A := fun w => (Resolved a, w).

Definition throw {A} (err : Thrown) : Async A := fun w => (Rejected err, w).

(** [const x = await m; k x] *)
Definition bind {A B} (m : Async A) (k : A -> Async B) : Async B :=
  fun w =>
    match m w with
    | (Resolved a, w1) => k a w1
    | (Rejected err, w1) => (Rejected err, w1)
    end.

(** [try { body } catch (err) { handler err }] *)
Definition try_catch {A} (body : Async A) (handler : Thrown -> Async A)
  : Async A :=
  fun w =>
    match body w with
    | (Resolved a, w1) => (Resolved a, w1)
    | (Rejected err, w1) => handler err w1
    end.

(** [try { body } finally { fin }]: [fin] runs however [body] settles and
    the outcome of [body] stands unless [fin] itself throws. *)
Definition try_finally {A} (body : Async A) (fin : Async unit) : Async A :=
  fun w =>
    match body w with
    | (r, w1) =>
        match fin w1 with
        | (Resolved _, w2) => (r, w2)
        | (Rejected err, w2) => (Rejected err, w2)
        end
    end.

(** [try { body } catch (err) { handler err } finally { fin }] *)
Definition try_catch_finally {A} (body : Async A)
  (handler : Thrown -> Async A) (fin : Async unit) : Async A :=
  try_finally (try_catch body handler) fin.

Declare Scope async_scope.
Delimit Scope async_scope with async.
Notation "x <- m ;; k" := (bind m (fun x => k))
  (at level 61, m at next level, right associativity) : async_scope.
Notation "m ;; k" := (bind m (fun _ => k))
  (at level 61, right associativity) : async_scope.
Open Scope async_scope.

(* ------------------------------------------------------------------ *)
(** ** The program *)

Section Program.

(** The behaviour of the remote service as seen through a client: how a
    call settles, given the calls made before it. *)
Variable respond : NotiBoostClient -> list Call -> Call -> Settled Json.

(** [client.events.ingest(event)], [client.users.get(userId)], ... *)
Definition invoke (client : NotiBoostClient) (c : Call) : Async Json :=
  fun w => (respond client (calls_of (trace w)) c, log (ClientCall c) w).

(** *** NotiBoostProvider *)

Definition setLoading (b : bool) : Async unit :=
  fun w =>
    (Resolved tt,
     log (SetLoading b)
       (mkWorld (st_client w) b (st_error w)
                (hk_user w) (hk_loading w) (hk_error w) (trace w))).

Definition setError (e : option NotiBoostError) : Async unit :=
  fun w =>
    (Resolved tt,
     log (SetError e)
       (mkWorld (st_client w) (st_loading w) e
                (hk_user w) (hk_loading w) (hk_error w) (trace w))).

Definition handleRequest {T} (requestFn : Async T) : Async T :=
  setLoading true ;;
  setError None ;;
  try_catch_finally
    (result <- requestFn ;; ret result)
    (fun err =>
       let notiBoostError := toNotiBoostError err in
       setError (Some notiBoostError) ;;
       throw (NotiBoostErrorInstance notiBoostError))
    (setLoading false).

Definition ingestEvent (client : NotiBoostClient) (event : Event) :=
  handleRequest (invoke client (EventsIngest event)).

Definition ingestEventBatch (client : NotiBoostClient) (events : list Event) :=
  handleRequest (invoke client (EventsIngestBatch events)).

Definition createUser (client : NotiBoostClient) (user : User) :=
  handleRequest (invoke client (UsersCreate user)).

Definition getUser (client : NotiBoostClient) (userId : string) :=
  handleRequest (invoke client (UsersGet userId)).

Definition updateUser (client : NotiBoostClient) (userId : string) (data : User) :=
  handleRequest (invoke client (UsersUpdate userId data)).

Definition deleteUser (client : NotiBoostClient) (userId : string) :=
  handleRequest (invoke client (UsersDelete userId)).

Definition setChannelData (client : NotiBoostClient) (userId : string)
  (channelData : ChannelData) :=
  handleRequest (invoke client (UsersSetChannelData userId channelData)).

Definition setPreferences (client : NotiBoostClient) (userId : string)
  (preferences : UserPreferences) :=
  handleRequest (invoke client (UsersSetPreferences userId preferences)).

Record NotiBoostContextType : Type := {
  ctx_client : NotiBoostClient;
  ctx_ingestEvent : Event -> Async Json;
  ctx_ingestEventBatch : list Event -> Async Json;
  ctx_createUser : User -> Async Json;
  ctx_getUser : string -> Async Json;
  ctx_updateUser : string -> User -> Async Json;
  ctx_deleteUser : string -> Async Json;
  ctx_setChannelData : string -> ChannelData -> Async Json;
  ctx_setPreferences : string -> UserPreferences -> Async Json;
  ctx_loading : bool;
  ctx_error : option NotiBoostError
}.

(** [useState(() => new NotiBoostClient({apiKey, baseURL, timeout, retries}))]:
    the initializer runs on the first render only; later renders get the
    stored instance, whatever the props are by then. *)
Definition useState_client (props : NotiBoostProviderProps) (w : World)
  : NotiBoostClient * World :=
  match st_client w with
  | Some client => (client, w)
  | None =>
      let cfg := {| config_apiKey := apiKey props;
                    config_baseURL := baseURL props;
                    config_timeout := timeout props;
                    config_retries := retries props |} in
      let client := new_NotiBoostClient cfg in
      (client,
       log (NewClient cfg)
         (mkWorld (Some client) (st_loading w) (st_error w)
                  (hk_user w) (hk_loading w) (hk_error w) (trace w)))
  end.

(** [const value: NotiBoostContextType = { client, ingestEvent, ..., loading, error }] *)
Definition value (client : NotiBoostClient) (loading : bool)
  (error : option NotiBoostError) : NotiBoostContextType :=
  {| ctx_client := client;
     ctx_ingestEvent := ingestEvent client;
     ctx_ingestEventBatch := ingestEventBatch client;
     ctx_createUser := createUser client;
     ctx_getUser := getUser client;
     ctx_updateUser := updateUser client;
     ctx_deleteUser := deleteUser client;
     ctx_setChannelData := setChannelData client;
     ctx_setPreferences := setPreferences client;
     ctx_loading := loading;
     ctx_error := error |}.

(** One render of the provider: the context value it hands down and the
    state cells afterwards. *)
Definition NotiBoostProvider (props : NotiBoostProviderProps) (w : World)
  : NotiBoostContextType * World :=
  let (client, w1) := useState_client props w in
  (value client (st_loading w1) (st_error w1), w1).

(** The wrapped operation of the context that makes the client call [c]. *)
Definition wrapped (ctx : NotiBoostContextType) (c : Call) : Async Json :=
  match c with
  | EventsIngest event => ctx_ingestEvent ctx event
  | EventsIngestBatch events => ctx_ingestEventBatch ctx events
  | UsersCreate user => ctx_createUser ctx user
  | UsersGet userId => ctx_getUser ctx userId
  | UsersUpdate userId data => ctx_updateUser ctx userId data
  | UsersDelete userId => ctx_deleteUser ctx userId
  | UsersSetChannelData userId channelData =>
      ctx_setChannelData ctx userId channelData
  | UsersSetPreferences userId preferences =>
      ctx_setPreferences ctx userId preferences
  end.

(** *** useNotiBoost, useEvent *)

(** [context] is what [useContext(NotiBoostContext)] yields: the default
    [undefined] outside a provider, the provider's value inside one. *)
Definition useNotiBoost (context : option NotiBoostContextType)
  : Completion NotiBoostContextType :=
  match context with
  | None => Threw (ErrorInstance "useNotiBoost must be used within NotiBoostProvider")
  | Some ctx => Returned ctx
  end.

Record UseEventReturn : Type := {
  ingest : Event -> Async Json;
  ev_loading : bool;
  ev_error : option NotiBoostError
}.

Definition useEvent (context : option NotiBoostContextType)
  : Completion UseEventReturn :=
  match useNotiBoost context with
  | Threw err => Threw err
  | Returned ctx =>
      Returned {| ingest := ctx_ingestEvent ctx;
                  ev_loading := ctx_loading ctx;
                  ev_error := ctx_error ctx |}
  end.

(** *** useUser *)

Definition setUser (u : User) : Async unit :=
  fun w =>
    (Resolved tt,
     log (HookSetUser u)
       (mkWorld (st_client w) (st_loading w) (st_error w)
                (Some u) (hk_loading w) (hk_error w) (trace w))).

Definition hook_setLoading (b : bool) : Async unit :=
  fun w =>
    (Resolved tt,
     log (HookSetLoading b)
       (mkWorld (st_client w) (st_loading w) (st_error w)
                (hk_user w) b (hk_error w) (trace w))).

Definition hook_setError (e : option NotiBoostError) : Async unit :=
  fun w =>
    (Resolved tt,
     log (HookSetError e)
       (mkWorld (st_client w) (st_loading w) (st_error w)
                (hk_user w) (hk_loading w) e (trace w))).

(** [!userId] for a string. *)
Definition falsy (userId : string) : bool := (userId =? "")%string.

Definition refresh (ctx : NotiBoostContextType) (userId : string)
  : Async unit :=
  if falsy userId then ret tt else
  hook_setLoading true ;;
  hook_setError None ;;
  try_catch_finally
    (userData <- ctx_getUser ctx userId ;; setUser userData)
    (fun err =>
       let notiBoostError := toNotiBoostError err in
       hook_setError (Some notiBoostError))
    (hook_setLoading false).

Definition update (ctx : NotiBoostContextType) (userId : string)
  (data : User) : Async unit :=
  if falsy userId then ret tt else
  hook_setLoading true ;;
  hook_setError None ;;
  try_catch_finally
    (ctx_updateUser ctx userId data ;; refresh ctx userId)
    (fun err =>
       let notiBoostError := toNotiBoostError err in
       hook_setError (Some notiBoostError) ;;
       throw (NotiBoostErrorInstance notiBoostError))
    (hook_setLoading false).

Definition hook_setChannelData (ctx : NotiBoostContextType)
  (userId : string) (channelData : ChannelData) : Async unit :=
  if falsy userId then ret tt else
  hook_setLoading true ;;
  hook_setError None ;;
  try_catch_finally
    (ctx_setChannelData ctx userId channelData ;; refresh ctx userId)
    (fun err =>
       let notiBoostError := toNotiBoostError err in
       hook_setError (Some notiBoostError) ;;
       throw (NotiBoostErrorInstance notiBoostError))
    (hook_setLoading false).

Record UseUserReturn : Type := {
  usr_user : option User;
  usr_loading : bool;
  usr_error : option NotiBoostError;
  usr_update : User -> Async unit;
  usr_setChannelData : ChannelData -> Async unit;
  usr_refresh : Async unit
}.

(** One render of the hook, reading its state cells from [w]. *)
Definition useUser (context : option NotiBoostContextType)
  (userId : string) (w : World) : Completion UseUserReturn :=
  match useNotiBoost context with
  | Threw err => Threw err
  | Returned ctx =>
      Returned {| usr_user := hk_user w;
                  usr_loading := hk_loading w;
                  usr_error := hk_error w;
                  usr_update := update ctx userId;
                  usr_setChannelData := hook_setChannelData ctx userId;
                  usr_refresh := refresh ctx userId |}
  end.

(** [React.useEffect(() => { refresh(); }, [refresh])]: the effect body,
    run after the first render and whenever [userId] changes. *)
Definition useUser_effect (ctx : NotiBoostContextType) (userId : string)
  : Async unit :=
  refresh ctx userId.

(** *** A mounted tree over time *)

(** What [useContext(NotiBoostContext)] yields to a consumer rendered in
    world [w]: the value of the provider once it has rendered, the default
    [undefined] before. *)
Definition useContext (w : World) : option NotiBoostContextType :=
  match st_client w with
  | Some client => Some (value client (st_loading w) (st_error w))
  | None => None
  end.

Inductive Interaction : Type :=
| Render (props : NotiBoostProviderProps)
    (* the provider renders, possibly with new props *)
| Operation (c : Call)
    (* a consumer of useNotiBoost calls the wrapped operation for c *)
| Refresh (userId : string)
| Update (userId : string) (data : User)
| SetChannelData (userId : string) (channelData : ChannelData).
    (* a consumer of useUser(userId) calls refresh, update, setChannelData *)

Definition interact (i : Interaction) (w : World) : World :=
  match i with
  | Render props => snd (NotiBoostProvider props w)
  | Operation c =>
      match useNotiBoost (useContext w) with
      | Returned ctx => snd (wrapped ctx c w)
      | Threw _ => w
      end
  | Refresh userId =>
      match useUser (useContext w) userId w with
      | Returned hook => snd (usr_refresh hook w)
      | Threw _ => w
      end
  | Update userId data =>
      match useUser (useContext w) userId w with
      | Returned hook => snd (usr_update hook data w)
      | Threw _ => w
      end
  | SetChannelData userId channelData =>
      match useUser (useContext w) userId w with
      | Returned hook => snd (usr_setChannelData hook channelData w)
      | Threw _ => w
      end
  end.

Definition interact_all (l : list Interaction) (w : World) : World :=
  fold_left (fun w i => interact i w) l w.

End Program.


(* ------------------------------------------------------------------ *)
(** ** handleRequest across its await *)

(** [handleRequest] up to its [await] (lines 45-48): loading and error are
    written, [requestFn()] makes the client call [c], and the function is
    suspended on the pending promise. *)
Definition handleRequest_begin (c : Call) (w : World) : World :=
  log (ClientCall c) (snd ((setLoading true ;; setError None) w)).

(** [handleRequest] from its [await] on (lines 48-58), resumed once the
    pending promise has settled as [outcome], in the world as it is by
    then. *)
Definition handleRequest_resume {T} (outcome : Settled T) : Async T :=
  try_catch_finally
    (result <- (fun w => (outcome, w)) ;; ret result)
    (fun err =>
       let notiBoostError := toNotiBoostError err in
       setError (Some notiBoostError) ;;
       throw (NotiBoostErrorInstance notiBoostError))
    (setLoading false).

(** What another wrapped call of the same provider does while one is
    suspended: it starts, or it settles. *)
Inductive Overlap : Type :=
| OtherStarts (c : Call)
| OtherSettles (outcome : Settled Json).

Definition overlap_step (o : Overlap) (w : World) : World :=
  match o with
  | OtherStarts c => handleRequest_begin c w
  | OtherSettles outcome => snd (handleRequest_resume outcome w)
  end.

Definition overlap_all (l : list Overlap) (w : World) : World :=
  fold_left (fun w o => overlap_step o w) l w.


Section Overlapping.

Variable respond : NotiBoostClient -> list Call -> Call -> Settled Json.

(** The wrapped operation for [c], with the steps [between] of other
    wrapped calls taking place while it is suspended. *)
Definition wrapped_overlapped (client : NotiBoostClient) (c : Call)
  (between : list Overlap) : Async Json :=
  fun w =>
    handleRequest_resume (respond client (calls_of (trace w)) c)
      (overlap_all between (handleRequest_begin c w)).

End Overlapping.

(* ------------------------------------------------------------------ *)
(** ** Callback identity and the mount effect *)

(** An entry of a dependency array.  React compares entries with
    [Object.is]: a string by its contents, an object or a function by its
    identity, which is a number here. *)
Inductive Dep : Type :=
| DepString (s : string)
| DepRef (id : nat).

Definition dep_eqb (a b : Dep) : bool :=
  match a, b with
  | DepString s, DepString t => (s =? t)%string
  | DepRef i, DepRef j => Nat.eqb i j
  | _, _ => false
  end.

Fixpoint deps_eqb (l1 l2 : list Dep) : bool :=
  match l1, l2 with
  | [], [] => true
  | a :: l1', b :: l2' => dep_eqb a b && deps_eqb l1' l2'
  | _, _ => false
  end.

(** The cell of a [useCallback]: the identity of the function it holds and
    the dependencies that function was created with. *)
Record Memo : Type := mkMemo {
  memo_id : nat;
  memo_deps : list Dep
}.

(** [useCallback(fn, deps)]: the first render, and a render whose [deps]
    differ from the stored ones, keep the function just created, whose
    identity [next] is new; any other render returns the stored one. *)
Definition useCallback (deps : list Dep) (cell : option Memo) (next : nat)
  : Memo * nat :=
  match cell with
  | Some m =>
      if deps_eqb (memo_deps m) deps then (m, next)
      else (mkMemo next deps, S next)
  | None => (mkMemo next deps, S next)
  end.

(** [useEffect(effect, deps)]: whether the effect runs after this render,
    and the dependencies stored for the next one. *)
Definition useEffect (deps : list Dep) (cell : option (list Dep))
  : bool * list Dep :=
  match cell with
  | Some old => (negb (deps_eqb old deps), deps)
  | None => (true, deps)
  end.

(** The cells of the provider that hold identities: the client of
    [useState] and the nine [useCallback]s, in source order. *)
Record ProviderCells : Type := {
  cell_client : nat;
  cell_handleRequest : Memo;
  cell_ingestEvent : Memo;
  cell_ingestEventBatch : Memo;
  cell_createUser : Memo;
  cell_getUser : Memo;
  cell_updateUser : Memo;
  cell_deleteUser : Memo;
  cell_setChannelData : Memo;
  cell_setPreferences : Memo
}.

(** One render of the provider, as far as identities go: [handleRequest]
    has the dependencies [[]], each wrapped operation
    [[client, handleRequest]]. *)
Definition render_NotiBoostProvider (cells : option ProviderCells)
  (next : nat) : ProviderCells * nat :=
  let (client, n0) :=
    match cells with
    | Some c => (cell_client c, next)
    | None => (next, S next)
    end in
  let (handleRequest', n1) :=
    useCallback [] (option_map cell_handleRequest cells) n0 in
  let deps := [DepRef client; DepRef (memo_id handleRequest')] in
  let (ingestEvent', n2) :=
    useCallback deps (option_map cell_ingestEvent cells) n1 in
  let (ingestEventBatch', n3) :=
    useCallback deps (option_map cell_ingestEventBatch cells) n2 in
  let (createUser', n4) :=
    useCallback deps (option_map cell_createUser cells) n3 in
  let (getUser', n5) :=
    useCallback deps (option_map cell_getUser cells) n4 in
  let (updateUser', n6) :=
    useCallback deps (option_map cell_updateUser cells) n5 in
  let (deleteUser', n7) :=
    useCallback deps (option_map cell_deleteUser cells) n6 in
  let (setChannelData', n8) :=
    useCallback deps (option_map cell_setChannelData cells) n7 in
  let (setPreferences', n9) :=
    useCallback deps (option_map cell_setPreferences cells) n8 in
  ({| cell_client := client;
      cell_handleRequest := handleRequest';
      cell_ingestEvent := ingestEvent';
      cell_ingestEventBatch := ingestEventBatch';
      cell_createUser := createUser';
      cell_getUser := getUser';
      cell_updateUser := updateUser';
      cell_deleteUser := deleteUser';
      cell_setChannelData := setChannelData';
      cell_setPreferences := setPreferences' |}, n9).

(** The cells of useUser that hold identities or dependencies. *)
Record UserCells : Type := {
  cell_refresh : Memo;
  cell_effect : list Dep;
  cell_update : Memo;
  cell_hook_setChannelData : Memo
}.

(** One render of useUser(userId) under a provider whose callbacks are
    [ctx]: refresh has the dependencies [[userId, getUser]], the effect
    [[refresh]], update [[userId, updateUser, refresh]] and setChannelData
    [[userId, setUserChannelData, refresh]].  The boolean tells whether the
    effect is due. *)
Definition render_useUser (ctx : ProviderCells) (userId : string)
  (cells : option UserCells) (next : nat) : UserCells * bool * nat :=
  let (refresh', n1) :=
    useCallback [DepString userId; DepRef (memo_id (cell_getUser ctx))]
      (option_map cell_refresh cells) next in
  let (due, effect') :=
    useEffect [DepRef (memo_id refresh')] (option_map cell_effect cells) in
  let (update', n2) :=
    useCallback [DepString userId; DepRef (memo_id (cell_updateUser ctx));
                 DepRef (memo_id refresh')]
      (option_map cell_update cells) n1 in
  let (setChannelData', n3) :=
    useCallback [DepString userId;
                 DepRef (memo_id (cell_setChannelData ctx));
                 DepRef (memo_id refresh')]
      (option_map cell_hook_setChannelData cells) n2 in
  ({| cell_refresh := refresh';
      cell_effect := effect';
      cell_update := update';
      cell_hook_setChannelData := setChannelData' |}, due, n3).

(** A provider with one consumer of useUser below it. *)
Record Tree : Type := mkTree {
  tree_world : World;
  tree_provider : option ProviderCells;
  tree_user : option UserCells;
  tree_next : nat
}.

Definition initial_tree : Tree := mkTree initial_world None None 0.

Section Rendering.

Variable respond : NotiBoostClient -> list Call -> Call -> Settled Json.

(** One render pass: the provider renders with [props], the consumer
    calls useUser(userId), and the effect, when due, runs with the context
    value of this render. *)
Definition render (props : NotiBoostProviderProps) (userId : string)
  (t : Tree) : Tree :=
  let (ctx, w1) := NotiBoostProvider respond props (tree_world t) in
  let (cells, n1) := render_NotiBoostProvider (tree_provider t) (tree_next t) in
  let '(user_cells, due, n2) := render_useUser cells userId (tree_user t) n1 in
  let w2 := if due then snd (useUser_effect ctx userId w1) else w1 in
  mkTree w2 (Some cells) (Some user_cells) n2.

Definition render_all (l : list (NotiBoostProviderProps * string)) (t : Tree)
  : Tree :=
  fold_left (fun t r => render (fst r) (snd r) t) l t.

End Rendering.

(** The userIds for which a fetch is due in a sequence of renders: each
    non-empty userId that differs from the userId of the render before it
    ([prev] is the userId of the last render so far, if any). *)
Fixpoint fetches_due (prev : option string) (userIds : list string)
  : list string :=
  match userIds with
  | [] => []
  | u :: rest =>
      let changed :=
        match prev with
        | Some p => negb (p =? u)%string
        | None => true
        end in
      (if changed && negb (falsy u) then [u] else [])
      ++ fetches_due (Some u) rest
  end.

(** The provider's callbacks were created with the dependencies the source
    gives them. *)
Definition provider_wf (pc : ProviderCells) : Prop :=
  let deps := [DepRef (cell_client pc); DepRef (memo_id (cell_handleRequest pc))] in
  memo_deps (cell_handleRequest pc) = []
  /\ memo_deps (cell_ingestEvent pc) = deps
  /\ memo_deps (cell_ingestEventBatch pc) = deps
  /\ memo_deps (cell_createUser pc) = deps
  /\ memo_deps (cell_getUser pc) = deps
  /\ memo_deps (cell_updateUser pc) = deps
  /\ memo_deps (cell_deleteUser pc) = deps
  /\ memo_deps (cell_setChannelData pc) = deps
  /\ memo_deps (cell_setPreferences pc) = deps.

(** The hook's callbacks and effect were created for the userId [last],
    with identities below [next]. *)
Definition user_wf (pc : ProviderCells) (last : string) (uc : UserCells)
  (next : nat) : Prop :=
  memo_deps (cell_refresh uc)
  = [DepString last; DepRef (memo_id (cell_getUser pc))]
  /\ cell_effect uc = [DepRef (memo_id (cell_refresh uc))]
  /\ memo_deps (cell_update uc)
     = [DepString last; DepRef (memo_id (cell_updateUser pc));
        DepRef (memo_id (cell_refresh uc))]
  /\ memo_deps (cell_hook_setChannelData uc)
     = [DepString last; DepRef (memo_id (cell_setChannelData pc));
        DepRef (memo_id (cell_refresh uc))]
  /\ memo_id (cell_refresh uc) < next
  /\ memo_id (cell_update uc) < next
  /\ memo_id (cell_hook_setChannelData uc) < next.

(** The tree has rendered at least once, the last time with the userId
    [last]. *)
Definition tree_inv (last : string) (t : Tree) : Prop :=
  exists pc uc,
    tree_provider t = Some pc /\ tree_user t = Some uc
    /\ provider_wf pc /\ user_wf pc last uc (tree_next t)
    /\ st_client (tree_world t) <> None.

(* ------------------------------------------------------------------ *)
(** ** Sample data and services *)

Definition sample_props : NotiBoostProviderProps :=
  {| apiKey := "key_live_1";
     baseURL := Some "https://api.notiboost.com";
     timeout := Some 30000%Z;
     retries := Some 3%Z |}.

Definition other_props : NotiBoostProviderProps :=
  {| apiKey := "key_live_2"; baseURL := None; timeout := None; retries := None |}.

Definition sample_client : NotiBoostClient :=
  new_NotiBoostClient
    {| config_apiKey := "key_live_1";
       config_baseURL := Some "https://api.notiboost.com";
       config_timeout := Some 30000%Z;
       config_retries := Some 3%Z |}.

Definition order_created : Event :=
  JObj [("event_name", JStr "order_created"); ("event_id", JStr "evt_001");
        ("user_id", JStr "u_123")].

Definition ann_before : User :=
  JObj [("user_id", JStr "u_123"); ("name", JStr "Ann"); ("phone", JStr "555")].

Definition ann_after : User :=
  JObj [("user_id", JStr "u_123"); ("name", JStr "New Name")].

Definition new_name : User := JObj [("name", JStr "New Name")].

Definition accepted : Json := JObj [("trace_id", JStr "trc_1")].

(** A service that accepts every call; fetches yield [ann_after]. *)
Definition service_ok (_ : NotiBoostClient) (_ : list Call) (c : Call)
  : Settled Json :=
  match c with
  | UsersGet _ => Resolved ann_after
  | _ => Resolved accepted
  end.

(** A service whose every call rejects with the value [v]. *)
Definition service_rejecting (v : Thrown) (_ : NotiBoostClient)
  (_ : list Call) (_ : Call) : Settled Json :=
  Rejected v.

(** A service that accepts writes and fails every fetch with [v]. *)
Definition service_fetch_failing (v : Thrown) (_ : NotiBoostClient)
  (_ : list Call) (c : Call) : Settled Json :=
  match c with
  | UsersGet _ => Rejected v
  | _ => Resolved accepted
  end.

(** A service that accepts every call but deletions, which it rejects with
    [v]. *)
Definition service_delete_failing (v : Thrown) (_ : NotiBoostClient)
  (_ : list Call) (c : Call) : Settled Json :=
  match c with
  | UsersDelete _ => Rejected v
  | _ => Resolved accepted
  end.

(** A world in which the hook already holds a snapshot. *)
Definition world_with_ann : World :=
  mkWorld (Some sample_client) false None (Some ann_before) false None [].

(* ------------------------------------------------------------------ *)
(** ** Shapes of runs *)

(** The three ways a write followed by a re-fetch can go, for the write
    [c] on behalf of [userId]; [op] is [update] or [hook_setChannelData]
    applied to its arguments. *)
Definition write_rejected_run (op : Async unit) (c : Call) (w : World)
  (v : Thrown) : Prop :=
  op w =
  (Rejected (NotiBoostErrorInstance (toNotiBoostError v)),
   mkWorld (st_client w) false (Some (toNotiBoostError v))
     (hk_user w) false (Some (toNotiBoostError v))
     (trace w ++ [HookSetLoading true; HookSetError None;
                  SetLoading true; SetError None; ClientCall c;
                  SetError (Some (toNotiBoostError v)); SetLoading false;
                  HookSetError (Some (toNotiBoostError v));
                  HookSetLoading false])).

Definition refetch_resolved_run (op : Async unit) (c : Call)
  (userId : string) (w : World) (u : User) : Prop :=
  op w =
  (Resolved tt,
   mkWorld (st_client w) false None (Some u) false None
     (trace w ++ [HookSetLoading true; HookSetError None;
                  SetLoading true; SetError None; ClientCall c;
                  SetLoading false;
                  HookSetLoading true; HookSetError None;
                  SetLoading true; SetError None;
                  ClientCall (UsersGet userId); SetLoading false;
                  HookSetUser u; HookSetLoading false;
                  HookSetLoading false])).

Definition refetch_rejected_run (op : Async unit) (c : Call)
  (userId : string) (w : World) (v : Thrown) : Prop :=
  op w =
  (Resolved tt,
   mkWorld (st_client w) false (Some (toNotiBoostError v))
     (hk_user w) false (Some (toNotiBoostError v))
     (trace w ++ [HookSetLoading true; HookSetError None;
                  SetLoading true; SetError None; ClientCall c;
                  SetLoading false;
                  HookSetLoading true; HookSetError None;
                  SetLoading true; SetError None;
                  ClientCall (UsersGet userId);
                  SetError (Some (toNotiBoostError v)); SetLoading false;
                  HookSetError (Some (toNotiBoostError v));
                  HookSetLoading false;
                  HookSetLoading false])).

(** [w'] comes from [w] by steps that keep the client instance, construct
    no client, and leave each loading flag false if it was. *)
Definition quiet (w w' : World) : Prop :=
  st_client w' = st_client w
  /\ constructions_of (trace w') = constructions_of (trace w)
  /\ (st_loading w = false -> st_loading w' = false)
  /\ (hk_loading w = false -> hk_loading w' = false).

(** The configuration object literal the provider builds from its props. *)
Definition config_of (props : NotiBoostProviderProps) : NotiBoostConfig :=
  {| config_apiKey := apiKey props;
     config_baseURL := baseURL props;
     config_timeout := timeout props;
     config_retries := retries props |}.

(** [op] is the hook's update or setChannelData for [userId], and [c] is
    the write it asks of the client. *)
Definition hook_write (ctx : NotiBoostContextType) (userId : string)
  (c : Call) (op : Async unit) : Prop :=
  (exists data, c = UsersUpdate userId data /\ op = update ctx userId data)
  \/ (exists channelData,
         c = UsersSetChannelData userId channelData
         /\ op = hook_setChannelData ctx userId channelData).

(* ------------------------------------------------------------------ *)
(** ** The specification's wording *)

(** "equals the thrown value if already of the normalized kind, otherwise a
    normalized wrapper with the original message and code 0": what the
    specification says is stored after a rejection with [v]. *)
Definition stored_as_specified (v : Thrown) (stored : option NotiBoostError)
  : Prop :=
  match v with
  | NotiBoostErrorInstance e => stored = Some e
  | _ => exists e, stored = Some e
                   /\ thrown_message v = Some (message e)
                   /\ statusCode e = 0%Z
  end.

(** "stored in shared state for passive observation, and re-thrown to the
    caller": the outcome of a failed hook operation surfaces one normalized
    error both ways. *)
Definition surfaced_both_ways (outcome : Settled unit * World) : Prop :=
  exists e, fst outcome = Rejected (NotiBoostErrorInstance e)
            /\ hk_error (snd outcome) = Some e.

(** "the returned snapshot reflects the post-update fetch": the fetch that
    followed the write [c] produced a record and the snapshot in [w'] is
    that record. *)
Definition snapshot_is_refetched
  (respond : NotiBoostClient -> list Call -> Call -> Settled Json)
  (client : NotiBoostClient) (w : World) (c : Call) (userId : string)
  (w' : World) : Prop :=
  exists u, respond client (calls_of (trace w) ++ [c]) (UsersGet userId)
            = Resolved u
            /\ hk_user w' = Some u.

(* ------------------------------------------------------------------ *)
(** ** Properties *)

Lemma calls_of_app (t1 t2 : list Action) :
  calls_of (t1 ++ t2) = calls_of t1 ++ calls_of t2.
Proof.
  induction t1 as [|a t1 IH]; simpl; [reflexivity|].
  destruct a; simpl; rewrite IH; reflexivity.
Qed.

Lemma constructions_of_app (t1 t2 : list Action) :
  constructions_of (t1 ++ t2) = constructions_of t1 ++ constructions_of t2.
Proof.
  induction t1 as [|a t1 IH]; simpl; [reflexivity|].
  destruct a; simpl; rewrite IH; reflexivity.
Qed.

(** What the request wrapper does around an arbitrary request function. *)
Lemma handleRequest_run {T} (requestFn : Async T) (w : World) :
  handleRequest requestFn w =
  match requestFn (mkWorld (st_client w) true None
                     (hk_user w) (hk_loading w) (hk_error w)
                     (trace w ++ [SetLoading true; SetError None])) with
  | (Resolved result, w2) =>
      (Resolved result,
       mkWorld (st_client w2) false (st_error w2)
         (hk_user w2) (hk_loading w2) (hk_error w2)
         (trace w2 ++ [SetLoading false]))
  | (Rejected err, w2) =>
      (Rejected (NotiBoostErrorInstance (toNotiBoostError err)),
       mkWorld (st_client w2) false (Some (toNotiBoostError err))
         (hk_user w2) (hk_loading w2) (hk_error w2)
         (trace w2 ++ [SetError (Some (toNotiBoostError err)); SetLoading false]))
  end.
Proof.
  unfold handleRequest, try_catch_finally, try_finally, try_catch, bind,
    setLoading, setError, ret, throw, log; simpl.
  rewrite <- app_assoc; simpl.
  destruct (requestFn _) as [[result|err] w2]; simpl;
    [reflexivity | rewrite <- app_assoc; reflexivity].
Qed.

Lemma quiet_refl (w : World) : quiet w w.
Proof. repeat split; auto. Qed.

Lemma quiet_trans (w1 w2 w3 : World) : quiet w1 w2 -> quiet w2 w3 -> quiet w1 w3.
Proof.
  intros (Hc1 & Ht1 & Hl1 & Hh1) (Hc2 & Ht2 & Hl2 & Hh2).
  repeat split; [congruence | congruence | auto | auto].
Qed.

Lemma constructions_of_quiet_suffix (t l : list Action) :
  constructions_of l = [] ->
  constructions_of (t ++ l) = constructions_of t.
Proof. intros H. rewrite constructions_of_app, H. apply app_nil_r. Qed.

(** Unfold the control operators and the state writes of the hook. *)
Ltac run_async :=
  unfold try_catch_finally, try_finally, try_catch, bind, ret, throw,
    hook_setLoading, hook_setError, setUser, log;
  cbn [fst snd st_client st_loading st_error hk_user hk_loading hk_error trace].

(** Bring a computed world to the form with one flat trace. *)
Ltac tidy := cbn; repeat (rewrite <- app_assoc; cbn).

(** Discharge a side condition about the calls made so far. *)
Ltac history H :=
  cbn; rewrite ?calls_of_app; cbn; rewrite ?app_nil_r; exact H.

(** Rewrite with the closed form of a run of update or setChannelData. *)
Ltac rewrite_run H :=
  let E := fresh "E" in
  pose proof H as E;
  unfold write_rejected_run, refetch_resolved_run, refetch_rejected_run in E;
  rewrite E; clear E.

(** Close a [quiet] goal about a world given in closed form. *)
Ltac quiet_run :=
  unfold quiet; cbn;
  repeat split; auto; apply constructions_of_quiet_suffix; reflexivity.

Section Properties.

Variable respond : NotiBoostClient -> list Call -> Call -> Settled Json.

Lemma wrapped_handleRequest client loading error (c : Call) :
  wrapped (value respond client loading error) c
  = handleRequest (invoke respond client c).
Proof. destruct c; reflexivity. Qed.

Lemma calls_of_begin (t : list Action) :
  calls_of (t ++ [SetLoading true; SetError None]) = calls_of t.
Proof. rewrite calls_of_app; simpl; apply app_nil_r. Qed.

(** A wrapped operation whose client call rejects. *)
Lemma wrapped_rejected client loading error c w v :
  respond client (calls_of (trace w)) c = Rejected v ->
  wrapped (value respond client loading error) c w =
  (Rejected (NotiBoostErrorInstance (toNotiBoostError v)),
   mkWorld (st_client w) false (Some (toNotiBoostError v))
     (hk_user w) (hk_loading w) (hk_error w)
     (trace w ++ [SetLoading true; SetError None; ClientCall c;
                  SetError (Some (toNotiBoostError v)); SetLoading false])).
Proof.
  intros H. rewrite wrapped_handleRequest, handleRequest_run.
  unfold invoke, log; simpl. rewrite calls_of_begin, H.
  repeat rewrite <- app_assoc. reflexivity.
Qed.

(** A wrapped operation whose client call resolves. *)
Lemma wrapped_resolved client loading error c w r :
  respond client (calls_of (trace w)) c = Resolved r ->
  wrapped (value respond client loading error) c w =
  (Resolved r,
   mkWorld (st_client w) false None
     (hk_user w) (hk_loading w) (hk_error w)
     (trace w ++ [SetLoading true; SetError None; ClientCall c;
                  SetLoading false])).
Proof.
  intros H. rewrite wrapped_handleRequest, handleRequest_run.
  unfold invoke, log; simpl. rewrite calls_of_begin, H.
  repeat rewrite <- app_assoc. reflexivity.
Qed.

(** *** Runs of the useUser operations *)

Lemma refresh_resolved client loading error userId w u :
  falsy userId = false ->
  respond client (calls_of (trace w)) (UsersGet userId) = Resolved u ->
  refresh (value respond client loading error) userId w =
  (Resolved tt,
   mkWorld (st_client w) false None (Some u) false None
     (trace w ++ [HookSetLoading true; HookSetError None;
                  SetLoading true; SetError None;
                  ClientCall (UsersGet userId); SetLoading false;
                  HookSetUser u; HookSetLoading false])).
Proof.
  intros Hid H. unfold refresh. rewrite Hid. run_async.
  change (ctx_getUser (value respond client loading error) userId)
    with (wrapped (value respond client loading error) (UsersGet userId)).
  rewrite (wrapped_resolved client loading error (UsersGet userId) _ u).
  - tidy. reflexivity.
  - history H.
Qed.

Lemma refresh_rejected client loading error userId w v :
  falsy userId = false ->
  respond client (calls_of (trace w)) (UsersGet userId) = Rejected v ->
  refresh (value respond client loading error) userId w =
  (Resolved tt,
   mkWorld (st_client w) false (Some (toNotiBoostError v))
     (hk_user w) false (Some (toNotiBoostError v))
     (trace w ++ [HookSetLoading true; HookSetError None;
                  SetLoading true; SetError None;
                  ClientCall (UsersGet userId);
                  SetError (Some (toNotiBoostError v)); SetLoading false;
                  HookSetError (Some (toNotiBoostError v));
                  HookSetLoading false])).
Proof.
  intros Hid H. unfold refresh. rewrite Hid. run_async.
  change (ctx_getUser (value respond client loading error) userId)
    with (wrapped (value respond client loading error) (UsersGet userId)).
  rewrite (wrapped_rejected client loading error (UsersGet userId) _ v).
  - tidy. reflexivity.
  - history H.
Qed.

Lemma update_write_rejected client loading error userId data w v :
  falsy userId = false ->
  respond client (calls_of (trace w)) (UsersUpdate userId data) = Rejected v ->
  write_rejected_run (update (value respond client loading error) userId data)
    (UsersUpdate userId data) w v.
Proof.
  intros Hid H. unfold write_rejected_run, update. rewrite Hid. run_async.
  change (ctx_updateUser (value respond client loading error) userId data)
    with (wrapped (value respond client loading error)
            (UsersUpdate userId data)).
  rewrite (wrapped_rejected client loading error _ _ v).
  - tidy. reflexivity.
  - history H.
Qed.

Lemma update_refetch_resolved client loading error userId data w r u :
  falsy userId = false ->
  respond client (calls_of (trace w)) (UsersUpdate userId data) = Resolved r ->
  respond client (calls_of (trace w) ++ [UsersUpdate userId data])
    (UsersGet userId) = Resolved u ->
  refetch_resolved_run
    (update (value respond client loading error) userId data)
    (UsersUpdate userId data) userId w u.
Proof.
  intros Hid H1 H2. unfold refetch_resolved_run, update. rewrite Hid.
  run_async.
  change (ctx_updateUser (value respond client loading error) userId data)
    with (wrapped (value respond client loading error)
            (UsersUpdate userId data)).
  rewrite (wrapped_resolved client loading error _ _ r); [|history H1].
  rewrite (refresh_resolved client loading error userId _ u Hid);
    [|history H2].
  tidy. reflexivity.
Qed.

Lemma update_refetch_rejected client loading error userId data w r v :
  falsy userId = false ->
  respond client (calls_of (trace w)) (UsersUpdate userId data) = Resolved r ->
  respond client (calls_of (trace w) ++ [UsersUpdate userId data])
    (UsersGet userId) = Rejected v ->
  refetch_rejected_run
    (update (value respond client loading error) userId data)
    (UsersUpdate userId data) userId w v.
Proof.
  intros Hid H1 H2. unfold refetch_rejected_run, update. rewrite Hid.
  run_async.
  change (ctx_updateUser (value respond client loading error) userId data)
    with (wrapped (value respond client loading error)
            (UsersUpdate userId data)).
  rewrite (wrapped_resolved client loading error _ _ r); [|history H1].
  rewrite (refresh_rejected client loading error userId _ v Hid);
    [|history H2].
  tidy. reflexivity.
Qed.

Lemma setChannelData_write_rejected client loading error userId cd w v :
  falsy userId = false ->
  respond client (calls_of (trace w)) (UsersSetChannelData userId cd)
    = Rejected v ->
  write_rejected_run
    (hook_setChannelData (value respond client loading error) userId cd)
    (UsersSetChannelData userId cd) w v.
Proof.
  intros Hid H. unfold write_rejected_run, hook_setChannelData.
  rewrite Hid. run_async.
  change (ctx_setChannelData (value respond client loading error) userId cd)
    with (wrapped (value respond client loading error)
            (UsersSetChannelData userId cd)).
  rewrite (wrapped_rejected client loading error _ _ v).
  - tidy. reflexivity.
  - history H.
Qed.

Lemma setChannelData_refetch_resolved client loading error userId cd w r u :
  falsy userId = false ->
  respond client (calls_of (trace w)) (UsersSetChannelData userId cd)
    = Resolved r ->
  respond client (calls_of (trace w) ++ [UsersSetChannelData userId cd])
    (UsersGet userId) = Resolved u ->
  refetch_resolved_run
    (hook_setChannelData (value respond client loading error) userId cd)
    (UsersSetChannelData userId cd) userId w u.
Proof.
  intros Hid H1 H2. unfold refetch_resolved_run, hook_setChannelData.
  rewrite Hid. run_async.
  change (ctx_setChannelData (value respond client loading error) userId cd)
    with (wrapped (value respond client loading error)
            (UsersSetChannelData userId cd)).
  rewrite (wrapped_resolved client loading error _ _ r); [|history H1].
  rewrite (refresh_resolved client loading error userId _ u Hid);
    [|history H2].
  tidy. reflexivity.
Qed.

Lemma setChannelData_refetch_rejected client loading error userId cd w r v :
  falsy userId = false ->
  respond client (calls_of (trace w)) (UsersSetChannelData userId cd)
    = Resolved r ->
  respond client (calls_of (trace w) ++ [UsersSetChannelData userId cd])
    (UsersGet userId) = Rejected v ->
  refetch_rejected_run
    (hook_setChannelData (value respond client loading error) userId cd)
    (UsersSetChannelData userId cd) userId w v.
Proof.
  intros Hid H1 H2. unfold refetch_rejected_run, hook_setChannelData.
  rewrite Hid. run_async.
  change (ctx_setChannelData (value respond client loading error) userId cd)
    with (wrapped (value respond client loading error)
            (UsersSetChannelData userId cd)).
  rewrite (wrapped_resolved client loading error _ _ r); [|history H1].
  rewrite (refresh_rejected client loading error userId _ v Hid);
    [|history H2].
  tidy. reflexivity.
Qed.

(** *** Every interaction is quiet *)

Lemma wrapped_quiet client loading error c w :
  quiet w (snd (wrapped (value respond client loading error) c w)).
Proof.
  destruct (respond client (calls_of (trace w)) c) as [r|v] eqn:H.
  - rewrite (wrapped_resolved client loading error c w r H). quiet_run.
  - rewrite (wrapped_rejected client loading error c w v H). quiet_run.
Qed.

Lemma refresh_quiet client loading error userId w :
  quiet w (snd (refresh (value respond client loading error) userId w)).
Proof.
  destruct (falsy userId) eqn:Hid.
  - unfold refresh. rewrite Hid. apply quiet_refl.
  - destruct (respond client (calls_of (trace w)) (UsersGet userId))
      as [u|v] eqn:H.
    + rewrite (refresh_resolved client loading error userId w u Hid H).
      quiet_run.
    + rewrite (refresh_rejected client loading error userId w v Hid H).
      quiet_run.
Qed.

Lemma update_quiet client loading error userId data w :
  quiet w (snd (update (value respond client loading error) userId data w)).
Proof.
  destruct (falsy userId) eqn:Hid.
  - unfold update. rewrite Hid. apply quiet_refl.
  - destruct (respond client (calls_of (trace w)) (UsersUpdate userId data))
      as [r|v] eqn:H1.
    + destruct (respond client (calls_of (trace w) ++ [UsersUpdate userId data])
                  (UsersGet userId)) as [u|v] eqn:H2.
      * rewrite_run (update_refetch_resolved client loading error userId
                   data w r u Hid H1 H2). quiet_run.
      * rewrite_run (update_refetch_rejected client loading error userId
                   data w r v Hid H1 H2). quiet_run.
    + rewrite_run (update_write_rejected client loading error userId
                 data w v Hid H1). quiet_run.
Qed.

Lemma setChannelData_quiet client loading error userId cd w :
  quiet w (snd (hook_setChannelData (value respond client loading error)
                  userId cd w)).
Proof.
  destruct (falsy userId) eqn:Hid.
  - unfold hook_setChannelData. rewrite Hid. apply quiet_refl.
  - destruct (respond client (calls_of (trace w))
                (UsersSetChannelData userId cd)) as [r|v] eqn:H1.
    + destruct (respond client
                  (calls_of (trace w) ++ [UsersSetChannelData userId cd])
                  (UsersGet userId)) as [u|v] eqn:H2.
      * rewrite_run (setChannelData_refetch_resolved client loading error userId
                   cd w r u Hid H1 H2). quiet_run.
      * rewrite_run (setChannelData_refetch_rejected client loading error userId
                   cd w r v Hid H1 H2). quiet_run.
    + rewrite_run (setChannelData_write_rejected client loading error userId
                 cd w v Hid H1). quiet_run.
Qed.

Lemma interact_quiet i w client :
  st_client w = Some client -> quiet w (interact respond i w).
Proof.
  intros Hc.
  destruct i;
    unfold interact, useUser, useContext, NotiBoostProvider, useState_client;
    rewrite Hc;
    cbn [useNotiBoost snd usr_refresh usr_update usr_setChannelData].
  - apply quiet_refl.
  - apply wrapped_quiet.
  - apply refresh_quiet.
  - apply update_quiet.
  - apply setChannelData_quiet.
Qed.

Lemma interact_all_quiet l : forall w client,
  st_client w = Some client -> quiet w (interact_all respond l w).
Proof.
  induction l as [|i l IH]; intros w client Hc.
  - apply quiet_refl.
  - cbn [interact_all fold_left].
    pose proof (interact_quiet i w client Hc) as Hq.
    apply (quiet_trans _ _ _ Hq).
    apply (IH _ client). destruct Hq as [Hq _]. congruence.
Qed.

(** X9: between interactions with a mounted tree that are run one at a
    time, nothing is loading: from a world where both loading flags are
    false, any sequence of renders, wrapped operations and hook operations
    leaves both flags false. *)
Lemma loading_false_between_interactions l w client :
  st_client w = Some client ->
  st_loading w = false -> hk_loading w = false ->
  st_loading (interact_all respond l w) = false
  /\ hk_loading (interact_all respond l w) = false.
Proof.
  intros Hc Hl Hh.
  destruct (interact_all_quiet l w client Hc) as (_ & _ & H1 & H2). auto.
Qed.

(** *** The client instance *)

(** C7: the first render of the provider constructs the client from a
    configuration whose apiKey, baseURL, timeout and retries are those of
    the props; whatever renders (also with other props) and operations
    follow, no second client is constructed and the context keeps handing
    down that first instance. *)
Theorem provider_constructs_one_client props l w :
  st_client w = None ->
  let w' := interact_all respond (Render props :: l) w in
  constructions_of (trace w') = constructions_of (trace w) ++ [config_of props]
  /\ st_client w' = Some (new_NotiBoostClient (config_of props))
  /\ (forall props',
         ctx_client (fst (NotiBoostProvider respond props' w'))
         = new_NotiBoostClient (config_of props))
  /\ config_apiKey (config_of props) = apiKey props
  /\ config_baseURL (config_of props) = baseURL props
  /\ config_timeout (config_of props) = timeout props
  /\ config_retries (config_of props) = retries props.
Proof.
  intros Hn w'.
  assert (Hq : quiet (interact respond (Render props) w) w').
  { apply (interact_all_quiet l _ (new_NotiBoostClient (config_of props))).
    cbn. unfold NotiBoostProvider, useState_client. rewrite Hn. reflexivity. }
  destruct Hq as (Hc & Ht & _ & _).
  assert (Hc' : st_client w' = Some (new_NotiBoostClient (config_of props))).
  { rewrite Hc. cbn. unfold NotiBoostProvider, useState_client.
    rewrite Hn. reflexivity. }
  split; [|split; [exact Hc'|split; [|repeat split]]].
  - rewrite Ht. cbn. unfold NotiBoostProvider, useState_client.
    rewrite Hn. cbn. rewrite constructions_of_app. reflexivity.
  - intros props'. unfold NotiBoostProvider, useState_client.
    rewrite Hc'. reflexivity.
Qed.

(** *** Errors *)

(** C1 (as amended): when the client call behind a wrapped provider
    operation (ingestEvent, ingestEventBatch, createUser, getUser,
    updateUser, deleteUser, setChannelData, setPreferences) rejects with
    [v], the stored error is non-null; it is [v] itself when [v] is a
    NotiBoostError, a NotiBoostError with [v]'s message and code 0 when
    [v] is another Error, and a NotiBoostError with the message
    'Unknown error' and code 0 for any other value. *)
Theorem wrapped_stores_normalized_error client loading error c w v :
  respond client (calls_of (trace w)) c = Rejected v ->
  let stored := st_error (snd (wrapped (value respond client loading error) c w)) in
  stored <> None /\
  match v with
  | NotiBoostErrorInstance e => stored = Some e
  | ErrorInstance msg => stored = Some (new_NotiBoostError msg 0)
  | OtherValue _ => stored = Some (new_NotiBoostError "Unknown error" 0)
  end.
Proof.
  intros H stored. subst stored.
  rewrite (wrapped_rejected client loading error c w v H). cbn.
  split; [discriminate|]. destruct v; reflexivity.
Qed.

(** Run alone, a wrapped provider operation whose client call resolves
    with [r] resolves with [r] itself and leaves the stored error null. *)
Theorem wrapped_success_returns_result client loading error c w r :
  respond client (calls_of (trace w)) c = Resolved r ->
  fst (wrapped (value respond client loading error) c w) = Resolved r
  /\ st_error (snd (wrapped (value respond client loading error) c w)) = None.
Proof.
  intros H. rewrite (wrapped_resolved client loading error c w r H).
  split; reflexivity.
Qed.

(** C2 (as amended): a failure of the client call behind a wrapped
    provider operation, and a failure of the write made by the hook's
    update or setChannelData, is stored in state and the same normalized
    error is thrown to the caller; a failed fetch inside the hook's
    refresh is stored in state as well, but refresh resolves. *)
Theorem failures_stored_and_rethrown client loading error w v :
  let ctx := value respond client loading error in
  (forall c,
      respond client (calls_of (trace w)) c = Rejected v ->
      exists e,
        fst (wrapped ctx c w) = Rejected (NotiBoostErrorInstance e)
        /\ st_error (snd (wrapped ctx c w)) = Some e)
  /\ (forall userId data,
         falsy userId = false ->
         respond client (calls_of (trace w)) (UsersUpdate userId data)
           = Rejected v ->
         surfaced_both_ways (update ctx userId data w))
  /\ (forall userId channelData,
         falsy userId = false ->
         respond client (calls_of (trace w))
           (UsersSetChannelData userId channelData) = Rejected v ->
         surfaced_both_ways (hook_setChannelData ctx userId channelData w))
  /\ (forall userId,
         falsy userId = false ->
         respond client (calls_of (trace w)) (UsersGet userId) = Rejected v ->
         fst (refresh ctx userId w) = Resolved tt
         /\ hk_error (snd (refresh ctx userId w)) = Some (toNotiBoostError v)
         /\ st_error (snd (refresh ctx userId w)) = Some (toNotiBoostError v)).
Proof.
  intros ctx. subst ctx. split; [|split; [|split]].
  - intros c H. exists (toNotiBoostError v).
    rewrite (wrapped_rejected client loading error c w v H).
    split; reflexivity.
  - intros userId data Hid H. exists (toNotiBoostError v).
    rewrite_run (update_write_rejected client loading error userId data w v Hid H).
    split; reflexivity.
  - intros userId cd Hid H. exists (toNotiBoostError v).
    rewrite_run (setChannelData_write_rejected client loading error userId cd w v
               Hid H).
    split; reflexivity.
  - intros userId Hid H.
    rewrite (refresh_rejected client loading error userId w v Hid H).
    repeat split.
Qed.

(** C10: refresh never rejects, whatever the context's getUser does; a
    failed fetch leaves its normalized error in the hook's error state;
    and update and setChannelData resolve when their write succeeds and
    the re-fetch fails, the failure being left in the error state. *)
Theorem refresh_never_rejects client loading error w v :
  let ctx := value respond client loading error in
  (forall (any_ctx : NotiBoostContextType) userId w0,
      exists w', refresh any_ctx userId w0 = (Resolved tt, w'))
  /\ (forall userId,
         falsy userId = false ->
         respond client (calls_of (trace w)) (UsersGet userId) = Rejected v ->
         fst (refresh ctx userId w) = Resolved tt
         /\ hk_error (snd (refresh ctx userId w)) = Some (toNotiBoostError v))
  /\ (forall userId data r,
         falsy userId = false ->
         respond client (calls_of (trace w)) (UsersUpdate userId data)
           = Resolved r ->
         respond client (calls_of (trace w) ++ [UsersUpdate userId data])
           (UsersGet userId) = Rejected v ->
         fst (update ctx userId data w) = Resolved tt
         /\ hk_error (snd (update ctx userId data w))
            = Some (toNotiBoostError v))
  /\ (forall userId channelData r,
         falsy userId = false ->
         respond client (calls_of (trace w))
           (UsersSetChannelData userId channelData) = Resolved r ->
         respond client
           (calls_of (trace w) ++ [UsersSetChannelData userId channelData])
           (UsersGet userId) = Rejected v ->
         fst (hook_setChannelData ctx userId channelData w) = Resolved tt
         /\ hk_error (snd (hook_setChannelData ctx userId channelData w))
            = Some (toNotiBoostError v)).
Proof.
  intros ctx. subst ctx. split; [|split; [|split]].
  - intros any_ctx userId w0. unfold refresh.
    destruct (falsy userId); [eexists; reflexivity|].
    run_async.
    destruct (ctx_getUser any_ctx userId _) as [[u|err] w2];
      eexists; reflexivity.
  - intros userId Hid H.
    rewrite (refresh_rejected client loading error userId w v Hid H).
    split; reflexivity.
  - intros userId data r Hid H1 H2.
    rewrite_run (update_refetch_rejected client loading error userId data w r v
               Hid H1 H2).
    split; reflexivity.
  - intros userId cd r Hid H1 H2.
    rewrite_run (setChannelData_refetch_rejected client loading error userId cd
               w r v Hid H1 H2).
    split; reflexivity.
Qed.

(** *** Loading *)

(** C3: however the request function settles, the provider's loading flag
    is false once the wrapper has settled; each wrapped provider
    operation sets loading to true and error to null immediately before
    calling the client; and the hook's refresh, update and setChannelData
    do the same with the hook's own loading and error cells. *)
Theorem loading_around_call client loading error w :
  let ctx := value respond client loading error in
  (forall (T : Type) (requestFn : Async T) w0,
      st_loading (snd (handleRequest requestFn w0)) = false)
  /\ (forall c,
         st_loading (snd (wrapped ctx c w)) = false
         /\ exists rest,
             trace (snd (wrapped ctx c w))
             = trace w ++ [SetLoading true; SetError None; ClientCall c]
               ++ rest)
  /\ (forall userId,
         falsy userId = false ->
         hk_loading (snd (refresh ctx userId w)) = false
         /\ exists rest,
             trace (snd (refresh ctx userId w))
             = trace w ++ [HookSetLoading true; HookSetError None;
                           SetLoading true; SetError None;
                           ClientCall (UsersGet userId)] ++ rest)
  /\ (forall userId data,
         falsy userId = false ->
         hk_loading (snd (update ctx userId data w)) = false
         /\ exists rest,
             trace (snd (update ctx userId data w))
             = trace w ++ [HookSetLoading true; HookSetError None;
                           SetLoading true; SetError None;
                           ClientCall (UsersUpdate userId data)] ++ rest)
  /\ (forall userId channelData,
         falsy userId = false ->
         hk_loading (snd (hook_setChannelData ctx userId channelData w))
         = false
         /\ exists rest,
             trace (snd (hook_setChannelData ctx userId channelData w))
             = trace w ++ [HookSetLoading true; HookSetError None;
                           SetLoading true; SetError None;
                           ClientCall (UsersSetChannelData userId channelData)]
               ++ rest).
Proof.
  intros ctx. subst ctx. split; [|split; [|split; [|split]]].
  - intros T requestFn w0. rewrite handleRequest_run.
    destruct (requestFn _) as [[result|err] w2]; reflexivity.
  - intros c.
    destruct (respond client (calls_of (trace w)) c) as [r|v] eqn:H.
    + rewrite (wrapped_resolved client loading error c w r H).
      split; [reflexivity | eexists; reflexivity].
    + rewrite (wrapped_rejected client loading error c w v H).
      split; [reflexivity | eexists; reflexivity].
  - intros userId Hid.
    destruct (respond client (calls_of (trace w)) (UsersGet userId))
      as [u|v] eqn:H.
    + rewrite (refresh_resolved client loading error userId w u Hid H).
      split; [reflexivity | eexists; reflexivity].
    + rewrite (refresh_rejected client loading error userId w v Hid H).
      split; [reflexivity | eexists; reflexivity].
  - intros userId data Hid.
    destruct (respond client (calls_of (trace w)) (UsersUpdate userId data))
      as [r|v] eqn:H1.
    + destruct (respond client (calls_of (trace w) ++ [UsersUpdate userId data])
                  (UsersGet userId)) as [u|v] eqn:H2.
      * rewrite_run (update_refetch_resolved client loading error userId
                   data w r u Hid H1 H2).
        split; [reflexivity | eexists; reflexivity].
      * rewrite_run (update_refetch_rejected client loading error userId
                   data w r v Hid H1 H2).
        split; [reflexivity | eexists; reflexivity].
    + rewrite_run (update_write_rejected client loading error userId
                 data w v Hid H1).
      split; [reflexivity | eexists; reflexivity].
  - intros userId cd Hid.
    destruct (respond client (calls_of (trace w))
                (UsersSetChannelData userId cd)) as [r|v] eqn:H1.
    + destruct (respond client
                  (calls_of (trace w) ++ [UsersSetChannelData userId cd])
                  (UsersGet userId)) as [u|v] eqn:H2.
      * rewrite_run (setChannelData_refetch_resolved client loading error userId
                   cd w r u Hid H1 H2).
        split; [reflexivity | eexists; reflexivity].
      * rewrite_run (setChannelData_refetch_rejected client loading error userId
                   cd w r v Hid H1 H2).
        split; [reflexivity | eexists; reflexivity].
    + rewrite_run (setChannelData_write_rejected client loading error userId
                 cd w v Hid H1).
      split; [reflexivity | eexists; reflexivity].
Qed.

(** *** Snapshot *)

(** C4 (as amended): when the write made by the hook's update or
    setChannelData succeeds, the hook resolves having made exactly one
    further client call, a fetch of the same user; if that fetch succeeds
    the snapshot is the fetched record, whatever it was before; if that
    fetch fails the snapshot is left as it was. *)
Theorem write_then_one_refetch client loading error userId w c r
  (op : Async unit) :
  let ctx := value respond client loading error in
  falsy userId = false ->
  (exists data, c = UsersUpdate userId data /\ op = update ctx userId data)
  \/ (exists channelData,
         c = UsersSetChannelData userId channelData
         /\ op = hook_setChannelData ctx userId channelData) ->
  respond client (calls_of (trace w)) c = Resolved r ->
  fst (op w) = Resolved tt
  /\ calls_of (trace (snd (op w)))
     = calls_of (trace w) ++ [c; UsersGet userId]
  /\ (forall u,
         respond client (calls_of (trace w) ++ [c]) (UsersGet userId)
         = Resolved u ->
         hk_user (snd (op w)) = Some u)
  /\ (forall v,
         respond client (calls_of (trace w) ++ [c]) (UsersGet userId)
         = Rejected v ->
         hk_user (snd (op w)) = hk_user w).
Proof.
  intros ctx Hid Hop Hw. subst ctx.
  assert (Hrun :
    (forall u, respond client (calls_of (trace w) ++ [c]) (UsersGet userId)
               = Resolved u -> refetch_resolved_run op c userId w u)
    /\ (forall v, respond client (calls_of (trace w) ++ [c]) (UsersGet userId)
                  = Rejected v -> refetch_rejected_run op c userId w v)).
  { destruct Hop as [[data [-> ->]] | [cd [-> ->]]]; split; intros x Hx.
    - exact (update_refetch_resolved client loading error userId data w r x
               Hid Hw Hx).
    - exact (update_refetch_rejected client loading error userId data w r x
               Hid Hw Hx).
    - exact (setChannelData_refetch_resolved client loading error userId cd
               w r x Hid Hw Hx).
    - exact (setChannelData_refetch_rejected client loading error userId cd
               w r x Hid Hw Hx). }
  destruct Hrun as [Hok Hko].
  assert (Hcalls : forall l, calls_of l = [c; UsersGet userId] ->
            calls_of (trace w ++ l) = calls_of (trace w) ++ [c; UsersGet userId]).
  { intros l Hl. rewrite calls_of_app, Hl. reflexivity. }
  destruct (respond client (calls_of (trace w) ++ [c]) (UsersGet userId))
    as [u|v] eqn:Hf.
  - rewrite_run (Hok u eq_refl). cbn. repeat split.
    + apply Hcalls. reflexivity.
    + intros u' Hu'. injection Hu' as <-. reflexivity.
    + intros v' Hv'. discriminate Hv'.
  - rewrite_run (Hko v eq_refl). cbn. repeat split.
    + apply Hcalls. reflexivity.
    + intros u' Hu'. discriminate Hu'.
Qed.


(** C8: when a fetch made by the hook's refresh succeeds, the snapshot
    afterwards is the fetched record, whatever the snapshot was before. *)
Theorem refresh_replaces_snapshot client loading error userId w u :
  falsy userId = false ->
  respond client (calls_of (trace w)) (UsersGet userId) = Resolved u ->
  hk_user (snd (refresh (value respond client loading error) userId w))
  = Some u.
Proof.
  intros Hid H.
  rewrite (refresh_resolved client loading error userId w u Hid H).
  reflexivity.
Qed.

(** C9: with an empty userId, refresh, update and setChannelData resolve
    with undefined at once: no client call is made and no state cell
    changes. *)
Theorem empty_userId_is_noop (ctx : NotiBoostContextType) data channelData w :
  refresh ctx "" w = (Resolved tt, w)
  /\ update ctx "" data w = (Resolved tt, w)
  /\ hook_setChannelData ctx "" channelData w = (Resolved tt, w).
Proof. repeat split. Qed.

(** *** Hooks outside a provider *)

(** C6: outside a provider, where the context is undefined, each of
    useNotiBoost, useEvent and useUser throws an Error with the message
    'useNotiBoost must be used within NotiBoostProvider' and returns
    nothing. *)
Theorem hooks_throw_outside_provider userId w :
  let err := ErrorInstance "useNotiBoost must be used within NotiBoostProvider" in
  useNotiBoost None = Threw err
  /\ useEvent None = Threw err
  /\ useUser None userId w = Threw err
  /\ useContext respond initial_world = None.
Proof. repeat split. Qed.

End Properties.

(* ------------------------------------------------------------------ *)
(** ** Overlapping wrapped calls *)




Section OverlapProperties.

Variable respond : NotiBoostClient -> list Call -> Call -> Settled Json.



End OverlapProperties.

(* ------------------------------------------------------------------ *)
(** ** Further properties *)

(** X1: whatever the request function is and whatever it throws, a
    rejection of handleRequest carries a NotiBoostError, that same error is
    the one stored, and loading is false. *)
Theorem handleRequest_rejects_normalized {T} (requestFn : Async T) w err :
  fst (handleRequest requestFn w) = Rejected err ->
  exists e,
    err = NotiBoostErrorInstance e
    /\ st_error (snd (handleRequest requestFn w)) = Some e
    /\ st_loading (snd (handleRequest requestFn w)) = false.
Proof.
  rewrite handleRequest_run.
  destruct (requestFn _) as [[result|thrown] w2]; cbn; intros H.
  - discriminate H.
  - injection H as <-. eexists. repeat split.
Qed.

Section FurtherProperties.

Variable respond : NotiBoostClient -> list Call -> Call -> Settled Json.

(** X2: a wrapped provider operation calls the client exactly once,
    however the call settles: nothing is retried. *)
Theorem wrapped_calls_client_once client loading error c w :
  calls_of (trace (snd (wrapped (value respond client loading error) c w)))
  = calls_of (trace w) ++ [c].
Proof.
  destruct (respond client (calls_of (trace w)) c) as [r|v] eqn:H.
  - rewrite (wrapped_resolved respond client loading error c w r H).
    cbn. rewrite calls_of_app. reflexivity.
  - rewrite (wrapped_rejected respond client loading error c w v H).
    cbn. rewrite calls_of_app. reflexivity.
Qed.

(** X3: a wrapped provider operation leaves the client instance and the
    three cells of useUser (snapshot, loading, error) as they were. *)
Theorem wrapped_leaves_hook_cells client loading error c w :
  let w' := snd (wrapped (value respond client loading error) c w) in
  st_client w' = st_client w
  /\ hk_user w' = hk_user w
  /\ hk_loading w' = hk_loading w
  /\ hk_error w' = hk_error w.
Proof.
  destruct (respond client (calls_of (trace w)) c) as [r|v] eqn:H.
  - rewrite (wrapped_resolved respond client loading error c w r H).
    repeat split.
  - rewrite (wrapped_rejected respond client loading error c w v H).
    repeat split.
Qed.

Lemma hook_write_rejected client loading error userId c op w v :
  falsy userId = false ->
  hook_write (value respond client loading error) userId c op ->
  respond client (calls_of (trace w)) c = Rejected v ->
  write_rejected_run op c w v.
Proof.
  intros Hid [[data [-> ->]] | [cd [-> ->]]] H.
  - exact (update_write_rejected respond client loading error userId data w v
             Hid H).
  - exact (setChannelData_write_rejected respond client loading error userId
             cd w v Hid H).
Qed.

Lemma hook_write_refetch_resolved client loading error userId c op w r u :
  falsy userId = false ->
  hook_write (value respond client loading error) userId c op ->
  respond client (calls_of (trace w)) c = Resolved r ->
  respond client (calls_of (trace w) ++ [c]) (UsersGet userId) = Resolved u ->
  refetch_resolved_run op c userId w u.
Proof.
  intros Hid [[data [-> ->]] | [cd [-> ->]]] H1 H2.
  - exact (update_refetch_resolved respond client loading error userId data
             w r u Hid H1 H2).
  - exact (setChannelData_refetch_resolved respond client loading error
             userId cd w r u Hid H1 H2).
Qed.

(** X4: when the write of the hook's update or setChannelData fails, no
    fetch follows it (the write is the only client call made) and the
    snapshot is left as it was. *)
Theorem failed_write_skips_refetch client loading error userId c op w v :
  falsy userId = false ->
  hook_write (value respond client loading error) userId c op ->
  respond client (calls_of (trace w)) c = Rejected v ->
  calls_of (trace (snd (op w))) = calls_of (trace w) ++ [c]
  /\ hk_user (snd (op w)) = hk_user w.
Proof.
  intros Hid Hop H.
  rewrite_run (hook_write_rejected client loading error userId c op w v
                 Hid Hop H).
  cbn. rewrite calls_of_app. split; reflexivity.
Qed.

(** X5: a NotiBoostError with which the client rejects the write of update
    or setChannelData passes through both catch blocks unchanged: the hook
    operation rejects with that very error, and it is what both the hook's
    and the provider's error cells hold. *)
Theorem client_error_reaches_caller_unchanged client loading error userId c
  op w e :
  falsy userId = false ->
  hook_write (value respond client loading error) userId c op ->
  respond client (calls_of (trace w)) c = Rejected (NotiBoostErrorInstance e) ->
  fst (op w) = Rejected (NotiBoostErrorInstance e)
  /\ hk_error (snd (op w)) = Some e
  /\ st_error (snd (op w)) = Some e.
Proof.
  intros Hid Hop H.
  rewrite_run (hook_write_rejected client loading error userId c op w _
                 Hid Hop H).
  repeat split.
Qed.

(** X6: a failed fetch in refresh leaves the snapshot as it was (also when
    it was fetched for another userId) and calls the client once. *)
Theorem failed_refresh_keeps_snapshot client loading error userId w v :
  falsy userId = false ->
  respond client (calls_of (trace w)) (UsersGet userId) = Rejected v ->
  hk_user (snd (refresh (value respond client loading error) userId w))
  = hk_user w
  /\ calls_of
       (trace (snd (refresh (value respond client loading error) userId w)))
     = calls_of (trace w) ++ [UsersGet userId].
Proof.
  intros Hid H.
  rewrite (refresh_rejected respond client loading error userId w v Hid H).
  cbn. rewrite calls_of_app. split; reflexivity.
Qed.

(** X7: run one at a time, success wipes earlier errors.  After a refresh
    whose fetch succeeds, and after an update or setChannelData whose write
    and re-fetch both succeed, with no other operation overlapping them,
    the hook's and the provider's error cells are null, whatever they held
    before the call. *)
Theorem success_clears_errors client loading error userId w :
  falsy userId = false ->
  (forall u,
      respond client (calls_of (trace w)) (UsersGet userId) = Resolved u ->
      let w' := snd (refresh (value respond client loading error) userId w) in
      hk_error w' = None /\ st_error w' = None)
  /\ (forall c op r u,
         hook_write (value respond client loading error) userId c op ->
         respond client (calls_of (trace w)) c = Resolved r ->
         respond client (calls_of (trace w) ++ [c]) (UsersGet userId)
         = Resolved u ->
         hk_error (snd (op w)) = None /\ st_error (snd (op w)) = None).
Proof.
  intros Hid. split.
  - intros u H w'. subst w'.
    rewrite (refresh_resolved respond client loading error userId w u Hid H).
    split; reflexivity.
  - intros c op r u Hop H1 H2.
    rewrite_run (hook_write_refetch_resolved client loading error userId c op
                   w r u Hid Hop H1 H2).
    split; reflexivity.
Qed.

(** X8: the provider's error is shared, the hook's is its own.  After a
    wrapped provider operation has failed, a consumer of useEvent sees that
    error and loading false, although it did not make the call; a consumer
    of useUser sees its snapshot, loading and error unchanged. *)
Theorem provider_failure_shared_with_useEvent client c w v userId :
  st_client w = Some client ->
  respond client (calls_of (trace w)) c = Rejected v ->
  let w' := snd (wrapped (value respond client (st_loading w) (st_error w))
                   c w) in
  (exists h,
      useEvent (useContext respond w') = Returned h
      /\ ev_error h = Some (toNotiBoostError v)
      /\ ev_loading h = false)
  /\ (exists h,
         useUser (useContext respond w') userId w' = Returned h
         /\ usr_error h = hk_error w
         /\ usr_loading h = hk_loading w
         /\ usr_user h = hk_user w).
Proof.
  intros Hc H w'. subst w'.
  rewrite (wrapped_rejected respond client _ _ c w v H).
  unfold useEvent, useUser, useContext. cbn. rewrite Hc. cbn.
  split; eexists; repeat split.
Qed.

End FurtherProperties.

(* ------------------------------------------------------------------ *)
(** ** Renders, callback identities and the mount effect *)

Lemma dep_eqb_refl d : dep_eqb d d = true.
Proof. destruct d; cbn; [apply String.eqb_refl | apply Nat.eqb_refl]. Qed.

Lemma deps_eqb_refl l : deps_eqb l l = true.
Proof. induction l as [|d l IH]; cbn; [reflexivity|]. rewrite dep_eqb_refl, IH. reflexivity. Qed.

Lemma useCallback_same m next : useCallback (memo_deps m) (Some m) next = (m, next).
Proof. unfold useCallback. rewrite deps_eqb_refl. reflexivity. Qed.

Lemma render_NotiBoostProvider_again pc next :
  provider_wf pc -> render_NotiBoostProvider (Some pc) next = (pc, next).
Proof.
  intros (H0 & H1 & H2 & H3 & H4 & H5 & H6 & H7 & H8).
  unfold render_NotiBoostProvider. cbn [option_map].
  rewrite <- H0 at 1. rewrite useCallback_same.
  rewrite <- H1 at 1. rewrite useCallback_same.
  rewrite <- H2 at 1. rewrite useCallback_same.
  rewrite <- H3 at 1. rewrite useCallback_same.
  rewrite <- H4 at 1. rewrite useCallback_same.
  rewrite <- H5 at 1. rewrite useCallback_same.
  rewrite <- H6 at 1. rewrite useCallback_same.
  rewrite <- H7 at 1. rewrite useCallback_same.
  rewrite <- H8 at 1. rewrite useCallback_same.
  destruct pc; reflexivity.
Qed.

Section RenderingProperties.
Variable respond : NotiBoostClient -> list Call -> Call -> Settled Json.

Lemma NotiBoostProvider_value props w :
  exists client,
    fst (NotiBoostProvider respond props w)
    = value respond client (st_loading w) (st_error w)
    /\ calls_of (trace (snd (NotiBoostProvider respond props w)))
       = calls_of (trace w).
Proof.
  unfold NotiBoostProvider, useState_client.
  destruct (st_client w) as [client|]; cbn.
  - exists client. split; reflexivity.
  - eexists. split; [reflexivity|]. rewrite calls_of_app. cbn. apply app_nil_r.
Qed.

(** X10: refresh calls the client exactly once, for a fetch of its userId,
    however the fetch settles, and not at all for an empty userId. *)
Theorem refresh_fetches_once client loading error userId w :
  calls_of (trace (snd (refresh (value respond client loading error) userId w)))
  = calls_of (trace w) ++ (if falsy userId then [] else [UsersGet userId]).
Proof.
  destruct (falsy userId) eqn:Hid.
  - unfold refresh. rewrite Hid. cbn. symmetry. apply app_nil_r.
  - destruct (respond client (calls_of (trace w)) (UsersGet userId))
      as [u|v] eqn:H.
    + rewrite (refresh_resolved respond client loading error userId w u Hid H).
      cbn. rewrite calls_of_app. reflexivity.
    + rewrite (refresh_rejected respond client loading error userId w v Hid H).
      cbn. rewrite calls_of_app. reflexivity.
Qed.

Lemma NotiBoostProvider_mounted props w :
  st_client w <> None -> snd (NotiBoostProvider respond props w) = w.
Proof.
  unfold NotiBoostProvider, useState_client.
  destruct (st_client w); [reflexivity | congruence].
Qed.

Lemma NotiBoostProvider_mounts props w :
  st_client (snd (NotiBoostProvider respond props w)) <> None.
Proof.
  unfold NotiBoostProvider, useState_client.
  destruct (st_client w) eqn:H; cbn; [rewrite H|]; discriminate.
Qed.

Lemma effect_keeps_client client loading error userId w :
  st_client w <> None ->
  st_client (snd (useUser_effect (value respond client loading error) userId w))
  <> None.
Proof.
  intros H. unfold useUser_effect.
  destruct (refresh_quiet respond client loading error userId w) as [Hc _].
  rewrite Hc. exact H.
Qed.

Lemma render_mounted props userId last t :
  tree_inv last t ->
  let t' := render respond props userId t in
  tree_inv userId t'
  /\ tree_provider t' = tree_provider t
  /\ ((last =? userId)%string = true -> t' = t)
  /\ ((last =? userId)%string = false ->
      forall uc uc',
        tree_user t = Some uc -> tree_user t' = Some uc' ->
        memo_id (cell_refresh uc) < memo_id (cell_refresh uc')
        /\ memo_id (cell_update uc) < memo_id (cell_update uc')
        /\ memo_id (cell_hook_setChannelData uc)
           < memo_id (cell_hook_setChannelData uc'))
  /\ calls_of (trace (tree_world t'))
     = calls_of (trace (tree_world t))
       ++ (if negb (last =? userId)%string && negb (falsy userId)
           then [UsersGet userId] else []).
Proof.
  intros (pc & uc & Hp & Hu & Hwf & (Hr & He & Hup & Hsc & Hlt1 & Hlt2 & Hlt3)
          & Hm) t'.
  subst t'. unfold render.
  destruct (NotiBoostProvider_value props (tree_world t))
    as (client & Hv & Hcalls).
  pose proof (NotiBoostProvider_mounted props (tree_world t) Hm) as Hw1.
  destruct (NotiBoostProvider respond props (tree_world t)) as [ctx w1].
  cbn [fst snd] in Hv, Hcalls, Hw1. subst ctx w1.
  rewrite Hp, Hu, (render_NotiBoostProvider_again pc _ Hwf).
  unfold render_useUser, useCallback, useEffect. cbn [option_map].
  rewrite Hr, He, Hup, Hsc. cbn [deps_eqb dep_eqb].
  rewrite !Nat.eqb_refl. cbn [andb].
  destruct (String.eqb_spec last userId) as [->|Hne]; cbn [andb negb].
  - rewrite !Nat.eqb_refl. cbn [negb andb].
    assert (Huc : {| cell_refresh := cell_refresh uc;
                     cell_effect := [DepRef (memo_id (cell_refresh uc))];
                     cell_update := cell_update uc;
                     cell_hook_setChannelData := cell_hook_setChannelData uc |}
                  = uc)
      by (destruct uc; cbn in *; congruence).
    rewrite Huc.
    assert (Ht : mkTree (tree_world t) (Some pc) (Some uc) (tree_next t) = t)
      by (destruct t; cbn in *; congruence).
    rewrite Ht.
    split; [|split; [exact Hp|split; [reflexivity|split]]].
    + exists pc, uc.
      split; [exact Hp|split; [exact Hu|split; [exact Hwf|split; [|exact Hm]]]].
      repeat split; assumption.
    + intros H. discriminate H.
    + symmetry; apply app_nil_r.
  - assert (Hid : Nat.eqb (memo_id (cell_refresh uc)) (tree_next t) = false)
      by (apply Nat.eqb_neq; lia).
    cbn [memo_id memo_deps]. rewrite Hid. cbn [negb andb].
    split; [|split; [reflexivity|split; [intros H; discriminate H|split]]].
    + exists pc. eexists.
      split; [reflexivity|split; [reflexivity|split; [exact Hwf|split]]].
      * repeat split; cbn; lia.
      * cbn. apply effect_keeps_client. exact Hm.
    + intros _ uc0 uc' Huc0 Huc'. cbn in Huc'.
      injection Huc0 as <-. injection Huc' as <-. cbn. lia.
    + cbn. unfold useUser_effect. rewrite refresh_fetches_once.
      destruct (falsy userId); reflexivity.
Qed.

Lemma render_first props userId t :
  tree_provider t = None -> tree_user t = None ->
  let t' := render respond props userId t in
  tree_inv userId t'
  /\ calls_of (trace (tree_world t'))
     = calls_of (trace (tree_world t))
       ++ (if falsy userId then [] else [UsersGet userId]).
Proof.
  intros Hp Hu t'. subst t'. unfold render.
  destruct (NotiBoostProvider_value props (tree_world t))
    as (client & Hv & Hcalls).
  pose proof (NotiBoostProvider_mounts props (tree_world t)) as Hm.
  destruct (NotiBoostProvider respond props (tree_world t)) as [ctx w1].
  cbn [fst snd] in Hv, Hcalls, Hm. subst ctx.
  rewrite Hp, Hu. cbn.
  split.
  - eexists. eexists.
    split; [reflexivity|split; [reflexivity|split; [|split]]].
    + repeat split.
    + repeat split; cbn; lia.
    + cbn. apply effect_keeps_client. exact Hm.
  - unfold useUser_effect. rewrite refresh_fetches_once, Hcalls. reflexivity.
Qed.

Lemma render_all_mounted l : forall last t,
  tree_inv last t ->
  tree_provider (render_all respond l t) = tree_provider t
  /\ calls_of (trace (tree_world (render_all respond l t)))
     = calls_of (trace (tree_world t))
       ++ map UsersGet (fetches_due (Some last) (map snd l)).
Proof.
  induction l as [|[props u] l IH]; intros last t Hinv.
  - cbn. split; [reflexivity | symmetry; apply app_nil_r].
  - cbn [render_all fold_left fst snd map fetches_due].
    destruct (render_mounted props u last t Hinv) as (Hi & Hp & _ & _ & Hc).
    destruct (IH u _ Hi) as [IHp IHc].
    unfold render_all in IHp, IHc.
    split; [congruence|].
    rewrite IHc, Hc, map_app, <- app_assoc. f_equal. f_equal.
    destruct (negb (last =? u)%string && negb (falsy u)); reflexivity.
Qed.

(** X11: over any sequence of renders of a provider with one useUser
    consumer, whatever the props and however the fetches settle, the
    client calls made are exactly one fetch for each render whose userId is
    non-empty and is the first or differs from that of the render before. *)
Theorem fetches_follow_userId (l : list (NotiBoostProviderProps * string)) :
  calls_of (trace (tree_world (render_all respond l initial_tree)))
  = map UsersGet (fetches_due None (map snd l)).
Proof.
  destruct l as [|[props u] l]; [reflexivity|].
  cbn [render_all fold_left fst snd map fetches_due].
  destruct (render_first props u initial_tree eq_refl eq_refl) as [Hi Hc].
  destruct (render_all_mounted l u _ Hi) as [_ Hall].
  unfold render_all in Hall. rewrite Hall, Hc, map_app. cbn [app andb].
  f_equal. destruct (falsy u); reflexivity.
Qed.

(** X12: the client, handleRequest and the eight wrapped operations keep,
    over any sequence of renders, the identities they got in the first
    render. *)
Theorem context_callbacks_stable r (l : list (NotiBoostProviderProps * string)) :
  tree_provider (render_all respond (r :: l) initial_tree)
  = tree_provider (render respond (fst r) (snd r) initial_tree).
Proof.
  cbn [render_all fold_left].
  destruct (render_first (fst r) (snd r) initial_tree eq_refl eq_refl)
    as [Hi _].
  exact (proj1 (render_all_mounted l _ _ Hi)).
Qed.

Lemma render_all_inv l : forall last t,
  tree_inv last t -> exists last', tree_inv last' (render_all respond l t).
Proof.
  induction l as [|[props u] l IH]; intros last t Hinv.
  - exists last. exact Hinv.
  - cbn [render_all fold_left fst snd].
    destruct (render_mounted props u last t Hinv) as (Hi & _).
    exact (IH u _ Hi).
Qed.

Lemma render_all_last_inv l props userId :
  tree_inv userId (render_all respond (l ++ [(props, userId)]) initial_tree).
Proof.
  unfold render_all. rewrite fold_left_app. cbn [fold_left fst snd].
  destruct l as [|[props0 u0] l].
  - exact (proj1 (render_first props userId initial_tree eq_refl eq_refl)).
  - cbn [fold_left fst snd].
    destruct (render_first props0 u0 initial_tree eq_refl eq_refl) as [Hi _].
    destruct (render_all_inv l _ _ Hi) as [last' Hi'].
    exact (proj1 (render_mounted props userId last' _ Hi')).
Qed.

(** X13: after any renders, the last of them with [userId], one more
    render with the same userId changes nothing, whatever its props: no
    state cell is written, no client call is made, and refresh, update and
    setChannelData are the same functions as before. *)
Theorem rerender_same_userId_changes_nothing l props userId props' :
  let t := render_all respond (l ++ [(props, userId)]) initial_tree in
  render respond props' userId t = t.
Proof.
  intros t.
  destruct (render_mounted props' userId userId t
              (render_all_last_inv l props userId)) as (_ & _ & Hsame & _).
  apply Hsame. apply String.eqb_refl.
Qed.

(** X14: after any renders, the last of them with [userId], a render with
    a different userId gives refresh, update and setChannelData new
    identities. *)
Theorem changed_userId_renews_hook_callbacks l props userId props' userId' :
  userId <> userId' ->
  let t := render_all respond (l ++ [(props, userId)]) initial_tree in
  let t' := render respond props' userId' t in
  exists uc uc',
    tree_user t = Some uc /\ tree_user t' = Some uc'
    /\ memo_id (cell_refresh uc) <> memo_id (cell_refresh uc')
    /\ memo_id (cell_update uc) <> memo_id (cell_update uc')
    /\ memo_id (cell_hook_setChannelData uc)
       <> memo_id (cell_hook_setChannelData uc').
Proof.
  intros Hne t t'.
  pose proof (render_all_last_inv l props userId) as Hinv. fold t in Hinv.
  destruct (render_mounted props' userId' userId t Hinv)
    as (Hinv' & _ & _ & Hnew & _). fold t' in Hinv', Hnew.
  destruct Hinv as (pc & uc & _ & Hu & _).
  destruct Hinv' as (pc' & uc' & _ & Hu' & _).
  exists uc, uc'. split; [exact Hu|split; [exact Hu'|]].
  assert (Hb : (userId =? userId')%string = false)
    by (apply String.eqb_neq; exact Hne).
  destruct (Hnew Hb uc uc' Hu Hu') as (H1 & H2 & H3).
  repeat split; lia.
Qed.

End RenderingProperties.

(* ------------------------------------------------------------------ *)
(** ** Concrete runs *)

(** C1, as the specification words it, fails for a rejection with a plain
    object [{ message: 'quota exceeded' }]: the stored error does not carry
    that message. *)
Lemma plain_object_message_not_stored :
  st_error
    (snd (wrapped
            (value (service_rejecting (OtherValue (Some "quota exceeded")))
               sample_client false None)
            (EventsIngest order_created) initial_world))
  = Some (new_NotiBoostError "Unknown error" 0)
  /\ ~ stored_as_specified (OtherValue (Some "quota exceeded"))
         (st_error
            (snd (wrapped
                    (value (service_rejecting (OtherValue (Some "quota exceeded")))
                       sample_client false None)
                    (EventsIngest order_created) initial_world))).
Proof.
  split; [reflexivity|].
  cbn. intros [e [Hs [Hm _]]].
  injection Hs as <-. cbn in Hm. discriminate Hm.
Qed.

Lemma wrapped_stores_normalized_error_witness :
  st_error
    (snd (wrapped
            (value (service_rejecting (ErrorInstance "Network Error"))
               sample_client false None)
            (UsersGet "u_123") initial_world))
  = Some (new_NotiBoostError "Network Error" 0).
Proof.
  exact (proj2 (wrapped_stores_normalized_error
                  (service_rejecting (ErrorInstance "Network Error"))
                  sample_client false None (UsersGet "u_123") initial_world
                  (ErrorInstance "Network Error") eq_refl)).
Defined.

Lemma wrapped_success_returns_result_witness :
  fst (wrapped (value service_ok sample_client false None)
         (EventsIngest order_created) initial_world) = Resolved accepted
  /\ st_error
       (snd (wrapped (value service_ok sample_client false None)
               (EventsIngest order_created) initial_world)) = None.
Proof.
  exact (wrapped_success_returns_result service_ok sample_client false None
           (EventsIngest order_created) initial_world accepted eq_refl).
Defined.

(** A full run of update: the write, then one fetch, then the new snapshot. *)
Example update_run :
  update (value service_ok sample_client false None) "u_123" new_name
    world_with_ann
  = (Resolved tt,
     mkWorld (Some sample_client) false None (Some ann_after) false None
       [HookSetLoading true; HookSetError None;
        SetLoading true; SetError None;
        ClientCall (UsersUpdate "u_123" new_name); SetLoading false;
        HookSetLoading true; HookSetError None;
        SetLoading true; SetError None;
        ClientCall (UsersGet "u_123"); SetLoading false;
        HookSetUser ann_after; HookSetLoading false; HookSetLoading false]).
Proof. reflexivity. Qed.

(** Mounting, an event, a render with other props: one client. *)
Example one_client_run :
  constructions_of
    (trace (interact_all service_ok
              [Render sample_props; Operation (EventsIngest order_created);
               Render other_props; Refresh "u_123"]
              initial_world))
  = [config sample_client].
Proof. reflexivity. Qed.

(** C2, as the specification words it, fails for refresh: a failed fetch is
    stored but the promise resolves, so nothing is thrown to the caller. *)
Lemma refresh_failure_not_rethrown :
  hk_error
    (snd (refresh (value (service_rejecting (ErrorInstance "Network Error"))
                     sample_client false None) "u_123" initial_world))
  = Some (new_NotiBoostError "Network Error" 0)
  /\ ~ surfaced_both_ways
         (refresh (value (service_rejecting (ErrorInstance "Network Error"))
                     sample_client false None) "u_123" initial_world).
Proof.
  split; [reflexivity|].
  intros [e [Hr _]]. cbn in Hr. discriminate Hr.
Qed.

Lemma failures_stored_and_rethrown_witness :
  surfaced_both_ways
    (update (value (service_rejecting (OtherValue None)) sample_client false None)
       "u_123" new_name world_with_ann)
  /\ fst (refresh (value (service_rejecting (OtherValue None))
                     sample_client false None) "u_123" world_with_ann)
     = Resolved tt.
Proof.
  pose (T := failures_stored_and_rethrown (service_rejecting (OtherValue None))
               sample_client false None world_with_ann (OtherValue None)).
  split.
  - exact (proj1 (proj2 T) "u_123" new_name eq_refl eq_refl).
  - exact (proj1 (proj2 (proj2 (proj2 T)) "u_123" eq_refl eq_refl)).
Defined.

Lemma loading_around_call_witness :
  st_loading
    (snd (handleRequest (invoke service_ok sample_client (UsersDelete "u_123"))
            initial_world)) = false
  /\ hk_loading
       (snd (refresh (value service_ok sample_client false None) "u_123"
               initial_world)) = false.
Proof.
  pose (T := loading_around_call service_ok sample_client false None
               initial_world).
  split.
  - exact (proj1 T Json _ initial_world).
  - exact (proj1 (proj1 (proj2 (proj2 T)) "u_123" eq_refl)).
Defined.

(** C4, as the specification words it, fails when the write succeeds and
    the fetch after it fails: update resolves, one fetch was made, and the
    snapshot is still the record held before the update. *)
Lemma stale_snapshot_after_failed_refetch :
  fst (update (value (service_fetch_failing (ErrorInstance "Network Error"))
                 sample_client false None) "u_123" new_name world_with_ann)
  = Resolved tt
  /\ hk_user
       (snd (update (value (service_fetch_failing (ErrorInstance "Network Error"))
                       sample_client false None) "u_123" new_name world_with_ann))
     = Some ann_before
  /\ ~ snapshot_is_refetched
         (service_fetch_failing (ErrorInstance "Network Error"))
         sample_client world_with_ann (UsersUpdate "u_123" new_name) "u_123"
         (snd (update
                 (value (service_fetch_failing (ErrorInstance "Network Error"))
                    sample_client false None) "u_123" new_name world_with_ann)).
Proof.
  split; [reflexivity|]. split; [reflexivity|].
  intros [u [Hf _]]. cbn in Hf. discriminate Hf.
Qed.

Lemma write_then_one_refetch_witness :
  calls_of
    (trace (snd (update (value service_ok sample_client false None) "u_123"
                   new_name world_with_ann)))
  = [UsersUpdate "u_123" new_name; UsersGet "u_123"]
  /\ hk_user
       (snd (update (value service_ok sample_client false None) "u_123"
               new_name world_with_ann))
     = Some ann_after.
Proof.
  pose (T := write_then_one_refetch service_ok sample_client false None
               "u_123" world_with_ann (UsersUpdate "u_123" new_name) accepted
               (update (value service_ok sample_client false None) "u_123"
                  new_name)
               eq_refl
               (or_introl (ex_intro _ new_name (conj eq_refl eq_refl)))
               eq_refl).
  split.
  - exact (proj1 (proj2 T)).
  - exact (proj1 (proj2 (proj2 T)) ann_after eq_refl).
Defined.

Lemma provider_constructs_one_client_witness :
  st_client initial_world = None
  /\ constructions_of
       (trace (interact_all service_ok
                 [Render sample_props; Operation (EventsIngest order_created);
                  Render other_props; Update "u_123" new_name]
                 initial_world))
     = [config_of sample_props].
Proof.
  split; [reflexivity|].
  exact (proj1 (provider_constructs_one_client service_ok sample_props
                  [Operation (EventsIngest order_created);
                   Render other_props; Update "u_123" new_name]
                  initial_world eq_refl)).
Defined.

Lemma refresh_replaces_snapshot_witness :
  hk_user world_with_ann = Some ann_before
  /\ hk_user
       (snd (refresh (value service_ok sample_client false None) "u_123"
               world_with_ann))
     = Some ann_after.
Proof.
  split; [reflexivity|].
  exact (refresh_replaces_snapshot service_ok sample_client false None
           "u_123" world_with_ann ann_after eq_refl eq_refl).
Defined.

Lemma refresh_never_rejects_witness :
  fst (update (value (service_fetch_failing (OtherValue (Some "boom")))
                 sample_client false None) "u_123" new_name world_with_ann)
  = Resolved tt
  /\ hk_error
       (snd (update (value (service_fetch_failing (OtherValue (Some "boom")))
                       sample_client false None) "u_123" new_name
               world_with_ann))
     = Some (new_NotiBoostError "Unknown error" 0).
Proof.
  exact (proj1 (proj2 (proj2
           (refresh_never_rejects (service_fetch_failing (OtherValue (Some "boom")))
              sample_client false None world_with_ann
              (OtherValue (Some "boom")))))
           "u_123" new_name accepted eq_refl eq_refl eq_refl).
Defined.

(* ------------------------------------------------------------------ *)
(** ** Concrete runs of the further properties *)

(** Five renders: a mount, a re-render, a new userId, an empty userId and
    the earlier userId again; three fetches. *)
Example render_run :
  calls_of
    (trace (tree_world
              (render_all service_ok
                 [(sample_props, "u_123"); (other_props, "u_123");
                  (sample_props, "u_456"); (sample_props, "");
                  (sample_props, "u_456")]
                 initial_tree)))
  = [UsersGet "u_123"; UsersGet "u_456"; UsersGet "u_456"].
Proof. reflexivity. Qed.

Lemma handleRequest_rejects_normalized_witness :
  exists e,
    NotiBoostErrorInstance (new_NotiBoostError "timeout" 0)
    = NotiBoostErrorInstance e
    /\ st_error
         (snd (handleRequest (@throw Json (ErrorInstance "timeout"))
                 initial_world)) = Some e
    /\ st_loading
         (snd (handleRequest (@throw Json (ErrorInstance "timeout"))
                 initial_world)) = false.
Proof.
  exact (handleRequest_rejects_normalized
           (@throw Json (ErrorInstance "timeout")) initial_world
           (NotiBoostErrorInstance (new_NotiBoostError "timeout" 0))
           eq_refl).
Defined.

Lemma failed_write_skips_refetch_witness :
  calls_of
    (trace (snd (update (value (service_rejecting (ErrorInstance "offline"))
                           sample_client false None)
                   "u_123" new_name world_with_ann)))
  = [UsersUpdate "u_123" new_name]
  /\ hk_user
       (snd (update (value (service_rejecting (ErrorInstance "offline"))
                       sample_client false None)
               "u_123" new_name world_with_ann))
     = Some ann_before.
Proof.
  exact (failed_write_skips_refetch (service_rejecting (ErrorInstance "offline"))
           sample_client false None "u_123" (UsersUpdate "u_123" new_name)
           (update (value (service_rejecting (ErrorInstance "offline"))
                      sample_client false None) "u_123" new_name)
           world_with_ann (ErrorInstance "offline") eq_refl
           (or_introl (ex_intro _ new_name (conj eq_refl eq_refl)))
           eq_refl).
Defined.

Lemma client_error_reaches_caller_unchanged_witness :
  fst (hook_setChannelData
         (value (service_rejecting
                   (NotiBoostErrorInstance (new_NotiBoostError "rate limited" 429)))
            sample_client false None)
         "u_123" new_name world_with_ann)
  = Rejected (NotiBoostErrorInstance (new_NotiBoostError "rate limited" 429))
  /\ hk_error
       (snd (hook_setChannelData
               (value (service_rejecting
                         (NotiBoostErrorInstance
                            (new_NotiBoostError "rate limited" 429)))
                  sample_client false None)
               "u_123" new_name world_with_ann))
     = Some (new_NotiBoostError "rate limited" 429)
  /\ st_error
       (snd (hook_setChannelData
               (value (service_rejecting
                         (NotiBoostErrorInstance
                            (new_NotiBoostError "rate limited" 429)))
                  sample_client false None)
               "u_123" new_name world_with_ann))
     = Some (new_NotiBoostError "rate limited" 429).
Proof.
  exact (client_error_reaches_caller_unchanged
           (service_rejecting
              (NotiBoostErrorInstance (new_NotiBoostError "rate limited" 429)))
           sample_client false None "u_123"
           (UsersSetChannelData "u_123" new_name)
           (hook_setChannelData
              (value (service_rejecting
                        (NotiBoostErrorInstance
                           (new_NotiBoostError "rate limited" 429)))
                 sample_client false None) "u_123" new_name)
           world_with_ann (new_NotiBoostError "rate limited" 429) eq_refl
           (or_intror (ex_intro _ new_name (conj eq_refl eq_refl)))
           eq_refl).
Defined.

Lemma failed_refresh_keeps_snapshot_witness :
  hk_user
    (snd (refresh (value (service_rejecting (OtherValue None))
                     sample_client false None) "u_456" world_with_ann))
  = Some ann_before
  /\ calls_of
       (trace (snd (refresh (value (service_rejecting (OtherValue None))
                               sample_client false None)
                      "u_456" world_with_ann)))
     = [UsersGet "u_456"].
Proof.
  exact (failed_refresh_keeps_snapshot (service_rejecting (OtherValue None))
           sample_client false None "u_456" world_with_ann (OtherValue None)
           eq_refl eq_refl).
Defined.

(** A world left behind by a failed operation. *)
Lemma success_clears_errors_witness :
  hk_error
    (snd (refresh (value service_ok sample_client false None) "u_123"
            (mkWorld (Some sample_client) false
               (Some (new_NotiBoostError "offline" 0)) (Some ann_before) false
               (Some (new_NotiBoostError "offline" 0)) [])))
  = None
  /\ st_error
       (snd (refresh (value service_ok sample_client false None) "u_123"
               (mkWorld (Some sample_client) false
                  (Some (new_NotiBoostError "offline" 0)) (Some ann_before)
                  false (Some (new_NotiBoostError "offline" 0)) [])))
     = None.
Proof.
  exact (proj1 (success_clears_errors service_ok sample_client false None
                  "u_123"
                  (mkWorld (Some sample_client) false
                     (Some (new_NotiBoostError "offline" 0)) (Some ann_before)
                     false (Some (new_NotiBoostError "offline" 0)) [])
                  eq_refl)
           ann_after eq_refl).
Defined.

Lemma provider_failure_shared_with_useEvent_witness :
  exists h,
    useEvent
      (useContext (service_rejecting (ErrorInstance "offline"))
         (snd (wrapped
                 (value (service_rejecting (ErrorInstance "offline"))
                    sample_client false None)
                 (UsersDelete "u_123") world_with_ann)))
    = Returned h
    /\ ev_error h = Some (new_NotiBoostError "offline" 0)
    /\ ev_loading h = false.
Proof.
  exact (proj1 (provider_failure_shared_with_useEvent
                  (service_rejecting (ErrorInstance "offline")) sample_client
                  (UsersDelete "u_123") world_with_ann
                  (ErrorInstance "offline") "u_123" eq_refl eq_refl)).
Defined.

Lemma loading_false_between_interactions_witness :
  st_loading
    (interact_all (service_fetch_failing (ErrorInstance "offline"))
       [Operation (EventsIngest order_created); Update "u_123" new_name;
        Refresh ""; Render other_props; SetChannelData "u_123" new_name]
       world_with_ann) = false
  /\ hk_loading
       (interact_all (service_fetch_failing (ErrorInstance "offline"))
          [Operation (EventsIngest order_created); Update "u_123" new_name;
           Refresh ""; Render other_props; SetChannelData "u_123" new_name]
          world_with_ann) = false.
Proof.
  exact (loading_false_between_interactions
           (service_fetch_failing (ErrorInstance "offline"))
           [Operation (EventsIngest order_created); Update "u_123" new_name;
            Refresh ""; Render other_props; SetChannelData "u_123" new_name]
           world_with_ann sample_client eq_refl eq_refl eq_refl).
Defined.

Lemma changed_userId_renews_hook_callbacks_witness :
  exists uc uc',
    tree_user (render_all service_ok [(sample_props, "u_123")] initial_tree)
    = Some uc
    /\ tree_user
         (render service_ok sample_props "u_456"
            (render_all service_ok [(sample_props, "u_123")] initial_tree))
       = Some uc'
    /\ memo_id (cell_refresh uc) <> memo_id (cell_refresh uc')
    /\ memo_id (cell_update uc) <> memo_id (cell_update uc')
    /\ memo_id (cell_hook_setChannelData uc)
       <> memo_id (cell_hook_setChannelData uc').
Proof.
  refine (changed_userId_renews_hook_callbacks service_ok [] sample_props
            "u_123" sample_props "u_456" _).
  discriminate.
Defined.

(* ------------------------------------------------------------------ *)
(** ** Concrete runs with overlapping calls *)


(** The whole trace of that schedule. *)
Example overlapping_run :
  trace
    (snd (wrapped_overlapped (service_delete_failing (ErrorInstance "offline"))
            sample_client (EventsIngest order_created)
            [OtherSettles (Rejected (ErrorInstance "offline"))]
            (handleRequest_begin (UsersDelete "u_123") world_with_ann)))
  = [SetLoading true; SetError None; ClientCall (UsersDelete "u_123");
     SetLoading true; SetError None; ClientCall (EventsIngest order_created);
     SetError (Some (new_NotiBoostError "offline" 0)); SetLoading false;
     SetLoading false].
Proof. reflexivity. Qed.

